(** * Veritrust web client: the media-verification workflow of [Upload.jsx]

    The development embeds the React component
    [web-client/src/upload/Upload.jsx] (the evidence-frame capable upload
    workflow) and its older duplicate (the unnamed source file that omits
    evidence frames), and proves the properties of the workflow
    specification against them.

    Layout:
    - [JS]: the JavaScript values and coercions the handlers rely on;
    - [Fixed]: [Number.prototype.toFixed] on binary64 numbers;
    - [Web]: files, requests, responses and the statement monad;
    - [Upload]: the canonical component (state cells, handlers, which
      controls are rendered, event dispatch, reachable worlds);
    - [UploadLegacy]: the duplicate component;
    - [SideBySide]: the relation between the two;
    - [Samples]: concrete files and responses;
    - the properties.

    A handler is a function on the record of [useState] cells.  The
    asynchronous [handleSubmit] is split at its [await]: [handleSubmit]
    runs up to the call of [fetch], [handleSubmit_settled] from the moment
    the request settles, and other events may be dispatched in between.
    Leaving the page ([onBack]) unmounts the component and discards its
    state; it is not an event of the model. *)

From Stdlib Require Import ZArith List String Ascii Bool Lia DecimalString.
From Stdlib Require Import SpecFloat.
Import ListNotations.

Local Open Scope string_scope.
Set Warnings "-register-all".

(* ===================================================================== *)
(** * JavaScript values                                                   *)
(* ===================================================================== *)

Module JS.

(** A JavaScript Number is an IEEE 754 binary64 value. *)
Definition Number : Type := spec_float.

Definition prec : Z := 53.
Definition emax : Z := 1024.

Definition mulN : Number -> Number -> Number := SFmul prec emax.
Definition divN : Number -> Number -> Number := SFdiv prec emax.
Definition ltN : Number -> Number -> bool := SFltb.
Definition leN : Number -> Number -> bool := SFleb.

(** The Number of an integer (exact below 2^53, rounded above). *)
Definition ofZ (z : Z) : Number := binary_normalize prec emax z 0 false.

(** The Number of a [length].  Lengths stay below 2^53, so the integer is
    representable and only has to be shifted to a 53-bit mantissa. *)
Definition ofLength (n : nat) : Number :=
  match Z.of_nat n with
  | Zpos p =>
      match (prec - Zpos (digits2_pos p))%Z with
      | Zpos k => S754_finite false (Pos.iter xO p k) (Zneg k)
      | _ => S754_finite false p 0
      end
  | _ => S754_zero false
  end.

(** What [JSON.parse] can produce, plus [undefined], which reading an
    absent property yields.  An object keeps its members in source order;
    a repeated key is resolved by [own] (the last one wins). *)
Inductive value : Type :=
| VUndefined
| VNull
| VBool (b : bool)
| VNum (x : Number)
| VStr (s : string)
| VArr (items : list value)
| VObj (members : list (string * value)).

(** A thrown value.  Everything thrown on the paths of the component is an
    [Error] object (built by [new Error], by the engine, by
    [response.json()] or by [fetch]); the handlers only read its
    [message]. *)
Record Error : Type := mkError { message : string }.

(** The outcome of evaluating an expression, or of awaiting a promise. *)
Inductive completion (A : Type) : Type :=
| Normal (a : A)
| Throw (e : Error).
Arguments Normal {A} a.
Arguments Throw {A} e.

(** What the runtime contributes beyond the component's own code:
    - [VITE_API_URL]: [import.meta.env.VITE_API_URL];
    - [cannot_read v k]: the message of the [TypeError] raised when
      property [k] of [v], [undefined] or [null], is read;
    - [coerce_to_string]: [ToString] of a value that is not a string;
    - [coerce_to_number]: [ToNumber] of a value that is neither a number
      nor [undefined];
    - [Number_toString]: [Number::toString], which [toFixed] falls back to
      from 1e21 on. *)
Class Engine : Type := {
  VITE_API_URL : option string;
  cannot_read : value -> string -> string;
  coerce_to_string : value -> completion string;
  coerce_to_number : value -> completion Number;
  Number_toString : Number -> string
}.

(** [ToBoolean]: what [!v], [v && _] and [v || _] test. *)
Definition ToBoolean (v : value) : bool :=
  match v with
  | VUndefined | VNull => false
  | VBool b => b
  | VNum (S754_zero _) | VNum S754_nan => false
  | VNum _ => true
  | VStr s => negb (s =? EmptyString)
  | VArr _ | VObj _ => true
  end.

(** The own member [k] of a parsed object. *)
Fixpoint own (members : list (string * value)) (k : string) : option value :=
  match members with
  | [] => None
  | (k', v) :: rest =>
      match own rest k with
      | Some later => Some later
      | None => if k' =? k then Some v else None
      end
  end.

(** [s || d] on strings: the empty string is falsy. *)
Definition or_else (s d : string) : string :=
  if s =? EmptyString then d else s.

(** [v === "s"] for a string literal. *)
Definition strict_eq_str (v : value) (s : string) : bool :=
  match v with
  | VStr t => t =? s
  | _ => false
  end.

Section WithEngine.
Context `{Engine}.

(** [v.k] for the member names the component reads ([detail],
    [prediction], [confidence], [filename], [gradcam_frames], [length]):
    none of them is on a built-in prototype except [length] of arrays and
    strings.  A string counts one unit per character. *)
Definition Get (v : value) (k : string) : completion value :=
  match v with
  | VUndefined | VNull => Throw (mkError (cannot_read v k))
  | VObj members =>
      Normal (match own members k with Some x => x | None => VUndefined end)
  | VArr items =>
      Normal (if k =? "length" then VNum (ofLength (List.length items))
              else VUndefined)
  | VStr s =>
      Normal (if k =? "length" then VNum (ofLength (String.length s))
              else VUndefined)
  | VBool _ | VNum _ => Normal VUndefined
  end.

Definition ToString (v : value) : completion string :=
  match v with
  | VStr s => Normal s
  | _ => coerce_to_string v
  end.

Definition ToNumber (v : value) : completion Number :=
  match v with
  | VNum x => Normal x
  | VUndefined => Normal S754_nan
  | _ => coerce_to_number v
  end.

(** [v > 0] *)
Definition gt_zero (v : value) : completion bool :=
  match ToNumber v with
  | Normal x => Normal (ltN (S754_zero false) x)
  | Throw e => Throw e
  end.

(** [new Error(v)] for a [v] that is not [undefined]. *)
Definition new_Error (v : value) : completion Error :=
  match ToString v with
  | Normal s => Normal (mkError s)
  | Throw e => Throw e
  end.

End WithEngine.

End JS.

(* ===================================================================== *)
(** * [Number.prototype.toFixed]                                          *)
(* ===================================================================== *)

Module Fixed.
Import JS.

(** The decimal digits of a non-negative integer, without leading
    zeros. *)
Definition decimal (n : Z) : string :=
  NilZero.string_of_uint (N.to_uint (Z.to_N n)).

(** The integer [n] for which [n / 10^f - x] is closest to zero, the
    larger one on a tie; [x = m * 2^e] with [m > 0]. *)
Definition nearest_scaled (f : nat) (m : positive) (e : Z) : Z :=
  let scaled := (Zpos m * 10 ^ Z.of_nat f)%Z in
  if (0 <=? e)%Z then (scaled * 2 ^ e)%Z
  else ((2 * scaled + 2 ^ (- e)) / 2 ^ (1 - e))%Z.

Fixpoint zeros (k : nat) : string :=
  match k with
  | O => EmptyString
  | S k' => String "0" (zeros k')
  end.

(** The digits of [n] with a point before the last [f] of them, padded
    with zeros on the left to [f + 1] digits. *)
Definition place_point (f : nat) (n : Z) : string :=
  let m := decimal n in
  match f with
  | O => m
  | _ =>
      let k := String.length m in
      let m' := if (k <=? f)%nat then zeros (f + 1 - k) ++ m else m in
      let k' := String.length m' in
      substring 0 (k' - f) m' ++ "." ++ substring (k' - f) f m'
  end.

(** [n / 10^f] is the multiple of [10^-f] nearest to the magnitude of
    [x], the larger of the two on a tie:
    [10^f |x| - 1/2 < n <= 10^f |x| + 1/2]. *)
Definition nearest_multiple (f : nat) (x : Number) (n : Z) : Prop :=
  match x with
  | S754_zero _ => n = 0%Z
  | S754_finite _ m e =>
      if (0 <=? e)%Z then n = (Zpos m * 10 ^ Z.of_nat f * 2 ^ e)%Z
      else (2 * (Zpos m * 10 ^ Z.of_nat f) - 2 ^ (- e) < 2 * n * 2 ^ (- e)
            <= 2 * (Zpos m * 10 ^ Z.of_nat f) + 2 ^ (- e))%Z
  | _ => False
  end.

(** [10^21 <= m * 2^e] *)
Definition at_least_1e21 (m : positive) (e : Z) : bool :=
  if (0 <=? e)%Z then (10 ^ 21 <=? Zpos m * 2 ^ e)%Z
  else (10 ^ 21 * 2 ^ (- e) <=? Zpos m)%Z.

Section WithEngine.
Context `{Engine}.

(** [x.toFixed(f)] for [0 <= f <= 100]: a number that is not finite, or
    of magnitude 1e21 or more, is printed by [Number::toString]; any
    other by the digits of the nearest multiple of [10^-f] after the sign
    of [x]. *)
Definition toFixed (x : Number) (f : nat) : string :=
  match x with
  | S754_nan => "NaN"
  | S754_infinity false => "Infinity"
  | S754_infinity true => "-Infinity"
  | S754_zero _ => place_point f 0
  | S754_finite s m e =>
      (if s then "-" else EmptyString) ++
      (if at_least_1e21 m e
       then Number_toString (S754_finite false m e)
       else place_point f (nearest_scaled f m e))
  end.

End WithEngine.

End Fixed.

(* ===================================================================== *)
(** * Browser objects shared by both components                           *)
(* ===================================================================== *)

Module Web.
Import JS.

(** A [File]: display name, declared MIME type and payload; its [size] is
    the byte length of the payload. *)
Record MediaFile : Type := mkFile {
  name : string;
  type : string;
  content : list Byte.byte
}.

Definition size (f : MediaFile) : nat := List.length (content f).

(** The argument of [fetch]: the body is a [FormData] with its appended
    fields. *)
Record Request : Type := mkRequest {
  url : string;
  method : string;
  body : list (string * MediaFile)
}.

(** A [Response]: [json] is what awaiting [response.json()] gives, the
    parsed body or the rejection of the parser. *)
Record Response : Type := mkResponse {
  status : nat;
  json : completion value
}.

(** [response.ok] *)
Definition ok (r : Response) : bool :=
  (200 <=? status r)%nat && (status r <=? 299)%nat.

(** What awaiting [fetch] gives: a response of any status, or a rejection
    (network failure). *)
Inductive FetchOutcome : Type :=
| Responded (r : Response)
| Rejected (e : Error).

(** The asynchronous work a handler starts. *)
Inductive Effect : Type :=
| StartRead (f : MediaFile)
| StartFetch (r : Request).

(** [e.type] of the drag events [handleDrag] is bound to. *)
Inductive DragType : Type := dragenter | dragover | dragleave.

(** Statements that update the component state and may throw. *)
Definition M (S A : Type) : Type := S -> completion A * S.

Definition ret {S A} (a : A) : M S A := fun s => (Normal a, s).

Definition bind {S A B} (c : M S A) (k : A -> M S B) : M S B :=
  fun s =>
    match c s with
    | (Normal a, s') => k a s'
    | (Throw e, s') => (Throw e, s')
    end.

Definition throw {S A} (e : Error) : M S A := fun s => (Throw e, s).

(** An expression evaluated in the middle of the statements. *)
Definition eval {S A} (c : completion A) : M S A := fun s => (c, s).

(** A call of a [useState] setter. *)
Definition set {S} (f : S -> S) : M S unit := fun s => (Normal tt, f s).

(** [try { body } catch (err) { handler } finally { final }] *)
Definition try_catch_finally {S}
    (body : M S unit) (handler : Error -> M S unit) (final : M S unit)
  : M S unit :=
  fun s =>
    let '(c, s1) :=
      match body s with
      | (Normal tt, s') => (Normal tt, s')
      | (Throw err, s') => handler err s'
      end in
    match final s1 with
    | (Normal tt, s2) => (c, s2)
    | (Throw e, s2) => (Throw e, s2)
    end.

Declare Scope js_scope.
Delimit Scope js_scope with js.
Notation "x <- c ;; k" := (bind c (fun x => k))
  (at level 61, c at next level, right associativity) : js_scope.
Notation "c ;; k" := (bind c (fun _ => k))
  (at level 61, right associativity) : js_scope.

(** [err.message || 'Error analyzing video. Make sure the backend is
    running.'], what the [catch] block of both components shows. *)
Definition shown_message (err : Error) : string :=
  or_else (message err)
    "Error analyzing video. Make sure the backend is running.".

(** The list without its [i]-th element. *)
Fixpoint remove_nth {A} (i : nat) (l : list A) {struct l} : list A :=
  match l, i with
  | [], _ => []
  | _ :: rest, O => rest
  | x :: rest, S i' => x :: remove_nth i' rest
  end.

Section WithEngine.
Context `{Engine}.

(** [import.meta.env.VITE_API_URL || 'http://localhost:8000'] *)
Definition API_URL : string :=
  match VITE_API_URL with
  | Some u => if u =? EmptyString then "http://localhost:8000" else u
  | None => "http://localhost:8000"
  end.

End WithEngine.

End Web.

(* ===================================================================== *)
(** * The canonical component, [upload/Upload.jsx]                        *)
(* ===================================================================== *)

Module Upload.
Import JS Web.

(** The seven [useState] cells. *)
Record State : Type := mkState {
  file : option MediaFile;
  preview : option (list Byte.byte);
  loading : bool;
  result : value;
  error : option string;
  dragActive : bool;
  selectedVisualization : nat
}.

Definition initial : State :=
  mkState None None false VNull None false 0.

Definition setFile (v : option MediaFile) (s : State) : State :=
  mkState v (preview s) (loading s) (result s) (error s) (dragActive s)
          (selectedVisualization s).
Definition setPreview (v : option (list Byte.byte)) (s : State) : State :=
  mkState (file s) v (loading s) (result s) (error s) (dragActive s)
          (selectedVisualization s).
Definition setLoading (v : bool) (s : State) : State :=
  mkState (file s) (preview s) v (result s) (error s) (dragActive s)
          (selectedVisualization s).
Definition setResult (v : value) (s : State) : State :=
  mkState (file s) (preview s) (loading s) v (error s) (dragActive s)
          (selectedVisualization s).
Definition setError (v : option string) (s : State) : State :=
  mkState (file s) (preview s) (loading s) (result s) v (dragActive s)
          (selectedVisualization s).
Definition setDragActive (v : bool) (s : State) : State :=
  mkState (file s) (preview s) (loading s) (result s) (error s) v
          (selectedVisualization s).
Definition setSelectedVisualization (v : nat) (s : State) : State :=
  mkState (file s) (preview s) (loading s) (result s) (error s)
          (dragActive s) v.

Section WithEngine.
Context `{Engine}.

(** [handleFileSelect(selectedFile)]; [None] is the [undefined] that
    [e.target.files[0]] gives when the picker holds no file. *)
Definition handleFileSelect (selectedFile : option MediaFile) (s : State)
  : State * list Effect :=
  match selectedFile with
  | Some f =>
      if prefix "video/" (type f)
      then (setResult VNull (setError None (setFile (Some f) s)),
            [StartRead f])
      else (setError (Some "Please select a valid video file") s, [])
  | None => (setError (Some "Please select a valid video file") s, [])
  end.

(** What [handleFileSelect] rejects: no file, or a file whose type does not
    begin with [video/]. *)
Definition not_a_video (selectedFile : option MediaFile) : Prop :=
  match selectedFile with
  | None => True
  | Some f => prefix "video/" (type f) = false
  end.

(** [reader.onload]: the read of [f] has finished. *)
Definition reader_onload (f : MediaFile) (s : State) : State :=
  setPreview (Some (content f)) s.

Definition handleDrag (t : DragType) (s : State) : State :=
  match t with
  | dragenter | dragover => setDragActive true s
  | dragleave => setDragActive false s
  end.

(** [handleDrop]; [files] is [e.dataTransfer.files]. *)
Definition handleDrop (files : list MediaFile) (s : State)
  : State * list Effect :=
  let s' := setDragActive false s in
  match files with
  | f :: _ => handleFileSelect (Some f) s'
  | [] => (s', [])
  end.

(** [handleSubmit] up to [await fetch(...)]. *)
Definition handleSubmit (s : State) : State * list Effect :=
  match file s with
  | None => (s, [])
  | Some f =>
      (setError None (setLoading true s),
       [StartFetch
          (mkRequest (API_URL ++ "/predict-video?include_gradcam=true")
                     "POST" [("file", f)])])
  end.

(** [data.gradcam_frames && data.gradcam_frames.length > 0], as a
    condition. *)
Definition has_frames (data : value) : completion bool :=
  match Get data "gradcam_frames" with
  | Throw e => Throw e
  | Normal frames =>
      if ToBoolean frames
      then match Get frames "length" with
           | Throw e => Throw e
           | Normal len => gt_zero len
           end
      else Normal false
  end.

(** [handleSubmit] from the settling of [fetch] on.  The handler awaits
    [fetch] and then [response.json()]; it writes no state between the
    two, so both are settled here at once.  [console.error] in the [catch]
    block writes no state and is left out. *)
Definition handleSubmit_settled (o : FetchOutcome) : M State unit :=
  try_catch_finally
    (response <- eval (match o with
                       | Responded r => Normal r
                       | Rejected e => Throw e
                       end) ;;
     (if negb (ok response)
      then
        errorData <- eval (json response) ;;
        detail <- eval (Get errorData "detail") ;;
        e <- eval (new_Error (if ToBoolean detail then detail
                              else VStr "Analysis failed")) ;;
        throw e
      else ret tt) ;;
     data <- eval (json response) ;;
     set (setResult data) ;;
     frames <- eval (has_frames data) ;;
     if frames : bool then set (setSelectedVisualization 0) else ret tt)%js
    (fun err => set (setError (Some (shown_message err))))
    (set (setLoading false)).

(** The remove-file button. *)
Definition remove_file_onClick (s : State) : State :=
  setResult VNull (setPreview None (setFile None s)).

(** The "Analyze Another" button. *)
Definition analyze_another_onClick (s : State) : State :=
  setSelectedVisualization 0
    (setError None (setResult VNull (setPreview None (setFile None s)))).

(** A thumbnail button. *)
Definition thumbnail_onClick (idx : nat) (s : State) : State :=
  setSelectedVisualization idx s.

(** ** Presentation of a result *)

Definition getResultColor (prediction : value) : string :=
  if strict_eq_str prediction "REAL" then "from-green-400 to-emerald-400"
  else if strict_eq_str prediction "FAKE" then "from-red-400 to-rose-400"
  else if strict_eq_str prediction "SUSPICIOUS"
       then "from-yellow-400 to-orange-400"
  else "from-cyan-400 to-purple-400".

Definition getResultBg (prediction : value) : string :=
  if strict_eq_str prediction "REAL"
  then "bg-green-500/10 border-green-500/30"
  else if strict_eq_str prediction "FAKE"
       then "bg-red-500/10 border-red-500/30"
  else if strict_eq_str prediction "SUSPICIOUS"
       then "bg-yellow-500/10 border-yellow-500/30"
  else "bg-white/5 border-white/10".

(** The children of the headline element; React renders [false] as
    nothing. *)
Definition headline (prediction : value) : string :=
  (if strict_eq_str prediction "REAL" then "✓ Content Verified" else EmptyString) ++
  (if strict_eq_str prediction "FAKE" then "⚠ Deepfake Detected" else EmptyString) ++
  (if strict_eq_str prediction "SUSPICIOUS" then "? Suspicious Content"
   else EmptyString).

(** [(confidence * 100).toFixed(1)] followed by the percent sign. *)
Definition confidence_text (confidence : Number) : string :=
  Fixed.toFixed (mulN confidence (ofZ 100)) 1 ++ "%".

(** ** Rendering: which controls exist *)

(** [!result]: the upload form is rendered; otherwise the result card. *)
Definition form_view (s : State) : bool := negb (ToBoolean (result s)).

(** The submit button is rendered with [disabled={!file || loading}]. *)
Definition submit_disabled (s : State) : bool :=
  match file s with
  | None => true
  | Some _ => loading s
  end.

(** The evidence frames the result card shows: [result.gradcam_frames]
    when it is an array. *)
Definition evidenceFrames (s : State) : list value :=
  match Get (result s) "gradcam_frames" with
  | Normal (VArr items) => items
  | _ => []
  end.

(** The thumbnail strip: one button per index of [gradcam_frames.map],
    rendered when there is more than one frame. *)
Definition thumbnail_rendered (idx : nat) (s : State) : bool :=
  (1 <? List.length (evidenceFrames s))%nat
  && (idx <? List.length (evidenceFrames s))%nat.

(** ** The component in its page *)

(** The component state together with the asynchronous work in progress:
    the requests whose [fetch] has not settled and the files whose
    [FileReader] has not finished. *)
Record World : Type := mkWorld {
  ui : State;
  fetches : list Request;
  reads : list MediaFile
}.

Definition start : World := mkWorld initial [] [].

Inductive Event : Type :=
| Pick (selectedFile : option MediaFile)   (* file input, [onChange] *)
| Drag (t : DragType)                      (* drop zone *)
| Drop (files : list MediaFile)            (* drop zone, [onDrop] *)
| Submit                                   (* the form's submit button *)
| RemoveFile                               (* the remove-file button *)
| AnalyzeAnother
| SelectThumbnail (idx : nat)
| FetchSettled (i : nat) (o : FetchOutcome) (* the [i]-th pending fetch *)
| ReaderLoaded (i : nat).                  (* the [i]-th pending read *)

(** Whether the event can happen: the control is rendered and enabled, or
    the asynchronous work is pending. *)
Definition enabled (w : World) (e : Event) : bool :=
  let s := ui w in
  match e with
  | Pick _ | Drag _ | Drop _ => form_view s
  | Submit => form_view s && negb (submit_disabled s)
  | RemoveFile =>
      form_view s && match file s with Some _ => true | None => false end
  | AnalyzeAnother => negb (form_view s)
  | SelectThumbnail idx => negb (form_view s) && thumbnail_rendered idx s
  | FetchSettled i _ => (i <? List.length (fetches w))%nat
  | ReaderLoaded i => (i <? List.length (reads w))%nat
  end.

Definition started (w : World) (r : State * list Effect) : World :=
  fold_left
    (fun w' eff =>
       match eff with
       | StartRead f => mkWorld (ui w') (fetches w') (reads w' ++ [f])
       | StartFetch q => mkWorld (ui w') (fetches w' ++ [q]) (reads w')
       end)
    (snd r) (mkWorld (fst r) (fetches w) (reads w)).

Definition handle (w : World) (e : Event) : World :=
  let s := ui w in
  match e with
  | Pick f => started w (handleFileSelect f s)
  | Drag t => started w (handleDrag t s, [])
  | Drop files => started w (handleDrop files s)
  | Submit => started w (handleSubmit s)
  | RemoveFile => started w (remove_file_onClick s, [])
  | AnalyzeAnother => started w (analyze_another_onClick s, [])
  | SelectThumbnail idx => started w (thumbnail_onClick idx s, [])
  | FetchSettled i o =>
      mkWorld (snd (handleSubmit_settled o s))
              (remove_nth i (fetches w)) (reads w)
  | ReaderLoaded i =>
      match nth_error (reads w) i with
      | Some f => mkWorld (reader_onload f s) (fetches w)
                          (remove_nth i (reads w))
      | None => w
      end
  end.

(** An event that cannot happen changes nothing. *)
Definition dispatch (w : World) (e : Event) : World :=
  if enabled w e then handle w e else w.

Definition run (w : World) (es : list Event) : World :=
  fold_left dispatch es w.

Inductive reachable : World -> Prop :=
| reachable_start : reachable start
| reachable_step w e : reachable w -> reachable (dispatch w e).

(** ** The invariant of the reachable worlds *)

(** A request is pending exactly while [loading] is set, and then no
    result is on display; without a result on display the selected index
    is 0; and the selected index addresses one of the evidence frames
    whenever there are any. *)
Record invariant (w : World) : Prop := mkInvariant {
  pending_iff_loading :
    List.length (fetches w) = if loading (ui w) then 1 else 0;
  loading_without_result :
    loading (ui w) = true -> ToBoolean (result (ui w)) = false;
  no_result_no_selection :
    ToBoolean (result (ui w)) = false -> selectedVisualization (ui w) = 0;
  selection_in_range :
    evidenceFrames (ui w) <> [] ->
    selectedVisualization (ui w) < List.length (evidenceFrames (ui w))
}.

(** ** The workflow state of the specification *)

Inductive WorkflowState : Type :=
| Idle | Ready | Submitting | Resulted | Failed.

(** The component has no such field; the state is read off the cells:
    a request in flight is [Submitting], a displayed result is
    [Resulted], no file is [Idle], a file with an error showing is
    [Failed] and a file without one is [Ready].  The single [error] cell
    holds validation errors too, so a rejected selection over an accepted
    file reads as [Failed]. *)
Definition workflowState (s : State) : WorkflowState :=
  if loading s then Submitting
  else if ToBoolean (result s) then Resulted
  else match file s, error s with
       | None, _ => Idle
       | Some _, None => Ready
       | Some _, Some _ => Failed
       end.

End WithEngine.

End Upload.

(* ===================================================================== *)
(** * The duplicate component (the upload workflow without evidence
      frames)                                                             *)
(* ===================================================================== *)

Module UploadLegacy.
Import JS Web.

(** The six [useState] cells. *)
Record State : Type := mkState {
  file : option MediaFile;
  preview : option (list Byte.byte);
  loading : bool;
  result : value;
  error : option string;
  dragActive : bool
}.

Definition initial : State := mkState None None false VNull None false.

Definition setFile (v : option MediaFile) (s : State) : State :=
  mkState v (preview s) (loading s) (result s) (error s) (dragActive s).
Definition setPreview (v : option (list Byte.byte)) (s : State) : State :=
  mkState (file s) v (loading s) (result s) (error s) (dragActive s).
Definition setLoading (v : bool) (s : State) : State :=
  mkState (file s) (preview s) v (result s) (error s) (dragActive s).
Definition setResult (v : value) (s : State) : State :=
  mkState (file s) (preview s) (loading s) v (error s) (dragActive s).
Definition setError (v : option string) (s : State) : State :=
  mkState (file s) (preview s) (loading s) (result s) v (dragActive s).
Definition setDragActive (v : bool) (s : State) : State :=
  mkState (file s) (preview s) (loading s) (result s) (error s) v.

Section WithEngine.
Context `{Engine}.

Definition handleFileSelect (selectedFile : option MediaFile) (s : State)
  : State * list Effect :=
  match selectedFile with
  | Some f =>
      if prefix "video/" (type f)
      then (setResult VNull (setError None (setFile (Some f) s)),
            [StartRead f])
      else (setError (Some "Please select a valid video file") s, [])
  | None => (setError (Some "Please select a valid video file") s, [])
  end.

Definition reader_onload (f : MediaFile) (s : State) : State :=
  setPreview (Some (content f)) s.

Definition handleDrag (t : DragType) (s : State) : State :=
  match t with
  | dragenter | dragover => setDragActive true s
  | dragleave => setDragActive false s
  end.

Definition handleDrop (files : list MediaFile) (s : State)
  : State * list Effect :=
  let s' := setDragActive false s in
  match files with
  | f :: _ => handleFileSelect (Some f) s'
  | [] => (s', [])
  end.

(** [handleSubmit] up to [await fetch(...)]. *)
Definition handleSubmit (s : State) : State * list Effect :=
  match file s with
  | None => (s, [])
  | Some f =>
      (setError None (setLoading true s),
       [StartFetch (mkRequest (API_URL ++ "/predict-video") "POST"
                              [("file", f)])])
  end.

(** [handleSubmit] from the settling of [fetch] on. *)
Definition handleSubmit_settled (o : FetchOutcome) : M State unit :=
  try_catch_finally
    (response <- eval (match o with
                       | Responded r => Normal r
                       | Rejected e => Throw e
                       end) ;;
     (if negb (ok response)
      then
        errorData <- eval (json response) ;;
        detail <- eval (Get errorData "detail") ;;
        e <- eval (new_Error (if ToBoolean detail then detail
                              else VStr "Analysis failed")) ;;
        throw e
      else ret tt) ;;
     data <- eval (json response) ;;
     set (setResult data))%js
    (fun err => set (setError (Some (shown_message err))))
    (set (setLoading false)).

Definition remove_file_onClick (s : State) : State :=
  setResult VNull (setPreview None (setFile None s)).

Definition analyze_another_onClick (s : State) : State :=
  setError None (setResult VNull (setPreview None (setFile None s))).

Definition form_view (s : State) : bool := negb (ToBoolean (result s)).

Definition submit_disabled (s : State) : bool :=
  match file s with
  | None => true
  | Some _ => loading s
  end.

Record World : Type := mkWorld {
  ui : State;
  fetches : list Request;
  reads : list MediaFile
}.

Definition start : World := mkWorld initial [] [].

(** The events of the canonical component except the thumbnails, which
    this component does not render. *)
Inductive Event : Type :=
| Pick (selectedFile : option MediaFile)
| Drag (t : DragType)
| Drop (files : list MediaFile)
| Submit
| RemoveFile
| AnalyzeAnother
| FetchSettled (i : nat) (o : FetchOutcome)
| ReaderLoaded (i : nat).

Definition enabled (w : World) (e : Event) : bool :=
  let s := ui w in
  match e with
  | Pick _ | Drag _ | Drop _ => form_view s
  | Submit => form_view s && negb (submit_disabled s)
  | RemoveFile =>
      form_view s && match file s with Some _ => true | None => false end
  | AnalyzeAnother => negb (form_view s)
  | FetchSettled i _ => (i <? List.length (fetches w))%nat
  | ReaderLoaded i => (i <? List.length (reads w))%nat
  end.

Definition started (w : World) (r : State * list Effect) : World :=
  fold_left
    (fun w' eff =>
       match eff with
       | StartRead f => mkWorld (ui w') (fetches w') (reads w' ++ [f])
       | StartFetch q => mkWorld (ui w') (fetches w' ++ [q]) (reads w')
       end)
    (snd r) (mkWorld (fst r) (fetches w) (reads w)).

Definition handle (w : World) (e : Event) : World :=
  let s := ui w in
  match e with
  | Pick f => started w (handleFileSelect f s)
  | Drag t => started w (handleDrag t s, [])
  | Drop files => started w (handleDrop files s)
  | Submit => started w (handleSubmit s)
  | RemoveFile => started w (remove_file_onClick s, [])
  | AnalyzeAnother => started w (analyze_another_onClick s, [])
  | FetchSettled i o =>
      mkWorld (snd (handleSubmit_settled o s))
              (remove_nth i (fetches w)) (reads w)
  | ReaderLoaded i =>
      match nth_error (reads w) i with
      | Some f => mkWorld (reader_onload f s) (fetches w)
                          (remove_nth i (reads w))
      | None => w
      end
  end.

Definition dispatch (w : World) (e : Event) : World :=
  if enabled w e then handle w e else w.

Definition run (w : World) (es : list Event) : World :=
  fold_left dispatch es w.

End WithEngine.

End UploadLegacy.

(* ===================================================================== *)
(** * The two components side by side                                     *)
(* ===================================================================== *)

Module SideBySide.
Import JS Web.

(** The cells the two components share. *)
Definition shared (s : Upload.State) : UploadLegacy.State :=
  UploadLegacy.mkState (Upload.file s) (Upload.preview s) (Upload.loading s)
                       (Upload.result s) (Upload.error s)
                       (Upload.dragActive s).

(** The same request except for the [include_gradcam] query flag. *)
Definition same_but_flag (q q' : Request) : Prop :=
  url q = url q' ++ "?include_gradcam=true" /\
  method q = method q' /\ body q = body q'.

(** The canonical world [w] and the duplicate's world [w'] agree. *)
Definition agree (w : Upload.World) (w' : UploadLegacy.World) : Prop :=
  shared (Upload.ui w) = UploadLegacy.ui w' /\
  Forall2 same_but_flag (Upload.fetches w) (UploadLegacy.fetches w') /\
  Upload.reads w = UploadLegacy.reads w'.

(** An event of the duplicate, on the canonical component. *)
Definition canonical (e : UploadLegacy.Event) : Upload.Event :=
  match e with
  | UploadLegacy.Pick f => Upload.Pick f
  | UploadLegacy.Drag t => Upload.Drag t
  | UploadLegacy.Drop files => Upload.Drop files
  | UploadLegacy.Submit => Upload.Submit
  | UploadLegacy.RemoveFile => Upload.RemoveFile
  | UploadLegacy.AnalyzeAnother => Upload.AnalyzeAnother
  | UploadLegacy.FetchSettled i o => Upload.FetchSettled i o
  | UploadLegacy.ReaderLoaded i => Upload.ReaderLoaded i
  end.

Section WithEngine.
Context `{Engine}.

(** The outcome is a successful response on whose data the evidence-frame
    test of the canonical handler throws. *)
Definition frames_test_throws (o : FetchOutcome) : bool :=
  match o with
  | Responded r =>
      ok r && match json r with
              | Normal data =>
                  match Upload.has_frames data with
                  | Throw _ => true
                  | Normal _ => false
                  end
              | Throw _ => false
              end
  | Rejected _ => false
  end.

Definition settles_alike (e : UploadLegacy.Event) : Prop :=
  match e with
  | UploadLegacy.FetchSettled _ o => frames_test_throws o = false
  | _ => True
  end.

End WithEngine.

End SideBySide.

(* ===================================================================== *)
(** * Concrete inputs                                                     *)
(* ===================================================================== *)

Module Samples.
Import JS Web.

(** An engine to run the components on concrete inputs, with Chrome's
    wording of the [TypeError].  The runs below read members of objects
    and of [null] and build errors from strings; they never reach the
    three coercions, which are given Chrome's answer for a plain
    object. *)
Definition chrome : Engine := {|
  VITE_API_URL := None;
  cannot_read := fun v k =>
    "Cannot read properties of "
    ++ match v with VNull => "null" | _ => "undefined" end
    ++ " (reading '" ++ k ++ "')";
  coerce_to_string := fun _ => Normal "[object Object]";
  coerce_to_number := fun _ => Normal S754_nan;
  Number_toString := fun _ => "NaN"
|}.

Definition clip : MediaFile := mkFile "a.mp4" "video/mp4" [].
Definition other_clip : MediaFile := mkFile "b.webm" "video/webm" [].
Definition notes : MediaFile := mkFile "notes.txt" "text/plain" [].

(** The number the literal [0.9847] denotes, and [0.972]. *)
Definition n0_9847 : Number := divN (ofZ 9847) (ofZ 10000).
Definition n0_972 : Number := divN (ofZ 972) (ofZ 1000).

(** HTTP 500 with body [{"detail":"file too large"}]. *)
Definition too_large : FetchOutcome :=
  Responded (mkResponse 500 (Normal (VObj [("detail", VStr "file too large")]))).

(** HTTP 502 with an empty body: [response.json()] rejects with the
    parser's [SyntaxError]. *)
Definition bad_gateway : FetchOutcome :=
  Responded (mkResponse 502 (Throw (mkError "Unexpected end of JSON input"))).

(** HTTP 200 with [{"prediction":"FAKE","confidence":0.972,
    "filename":"a.mp4"}]. *)
Definition fake_verdict : value :=
  VObj [("prediction", VStr "FAKE"); ("confidence", VNum n0_972);
        ("filename", VStr "a.mp4")].

Definition verdict_arrives : FetchOutcome :=
  Responded (mkResponse 200 (Normal fake_verdict)).

(** HTTP 200 with three evidence frames. *)
Definition frame (number : Z) (score : Number) (key : bool) : value :=
  VObj [("image", VStr "data:image/png;base64,AAAA");
        ("frame_number", VNum (ofZ number));
        ("score", VNum score); ("detection_frame", VBool key)].

Definition framed_verdict : value :=
  VObj [("prediction", VStr "FAKE"); ("confidence", VNum n0_972);
        ("filename", VStr "a.mp4");
        ("gradcam_frames",
         VArr [frame 12 n0_972 false; frame 40 n0_9847 true;
               frame 77 n0_972 false])].

Definition frames_arrive : FetchOutcome :=
  Responded (mkResponse 200 (Normal framed_verdict)).

(** HTTP 200 with body [null]. *)
Definition null_body : FetchOutcome :=
  Responded (mkResponse 200 (Normal VNull)).

End Samples.

(* ===================================================================== *)
(** * More of the upload page                                             *)
(* ===================================================================== *)

Module UploadView.
Import JS Web.

(** The cells the workflow depends on, with the pending work: everything
    but [preview] and [dragActive]. *)
Definition workflow_cells (w : Upload.World)
  : option MediaFile * bool * value * option string * nat
    * list Request * list MediaFile :=
  (Upload.file (Upload.ui w), Upload.loading (Upload.ui w),
   Upload.result (Upload.ui w), Upload.error (Upload.ui w),
   Upload.selectedVisualization (Upload.ui w),
   Upload.fetches w, Upload.reads w).

(** A file [handleFileSelect] accepts. *)
Definition is_video (f : MediaFile) : Prop :=
  prefix "video/" (type f) = true.

(** What a settled request writes, as setter calls: the result if any,
    the selected index back to 0 if asked, the error if any, and the
    loading flag off. *)
Definition written (res : option value) (reset : bool)
    (err : option string) (s : Upload.State) : Upload.State :=
  let s1 := match res with Some d => Upload.setResult d s | None => s end in
  let s2 := if reset then Upload.setSelectedVisualization 0 s1 else s1 in
  let s3 := match err with
            | Some m => Upload.setError (Some m) s2
            | None => s2
            end in
  Upload.setLoading false s3.

(** [result.gradcam_frames[selectedVisualization]], the frame of the main
    panel. *)
Definition main_frame `{Engine} (s : Upload.State) : option value :=
  nth_error (Upload.evidenceFrames s) (Upload.selectedVisualization s).

(** [selectedVisualization === idx], the highlighted border of a
    thumbnail. *)
Definition highlighted (idx : nat) (s : Upload.State) : bool :=
  (Upload.selectedVisualization s =? idx)%nat.

(** The indices [gradcam_frames.map] renders a thumbnail for. *)
Definition thumbnails `{Engine} (s : Upload.State) : list nat :=
  if (1 <? List.length (Upload.evidenceFrames s))%nat
  then seq 0 (List.length (Upload.evidenceFrames s))
  else [].

(** [(file.size / (1024 * 1024)).toFixed(2)] followed by [MB], the size
    shown beside the file name. *)
Definition size_text `{Engine} (f : MediaFile) : string :=
  Fixed.toFixed
    (divN (ofLength (size f)) (mulN (ofZ 1024) (ofZ 1024))) 2 ++ "MB".

(** The digits [toFixed] lays out around the point: those of [n], with
    zeros in front up to [f + 1] digits. *)
Definition padded (f : nat) (n : Z) : string :=
  let m := Fixed.decimal n in
  if (String.length m <=? f)%nat
  then Fixed.zeros (f + 1 - String.length m) ++ m else m.

Section WithEngine.
Context `{Engine}.

(** The request [handleSubmit] builds for an accepted file. *)
Definition upload_request (q : Request) : Prop :=
  url q = API_URL ++ "/predict-video?include_gradcam=true" /\
  method q = "POST" /\
  exists f, body q = [("file", f)] /\ is_video f.

(** Nothing but accepted videos is held, read or sent. *)
Record only_videos (w : Upload.World) : Prop := mkOnlyVideos {
  held_is_video :
    forall f, Upload.file (Upload.ui w) = Some f -> is_video f;
  sent_are_uploads : Forall upload_request (Upload.fetches w);
  read_are_videos : Forall is_video (Upload.reads w)
}.

(** A way back to the start: let the pending request fail, leave the
    result card, pick a video, let every read finish, remove the file and
    end the drag. *)
Definition way_back (w : Upload.World) (f : MediaFile) (e : Error)
  : list Upload.Event :=
  (if Upload.loading (Upload.ui w)
   then [Upload.FetchSettled 0 (Rejected e)] else [])
  ++ (if ToBoolean (Upload.result (Upload.ui w))
      then [Upload.AnalyzeAnother] else [])
  ++ [Upload.Pick (Some f)]
  ++ repeat (Upload.ReaderLoaded 0) (S (List.length (Upload.reads w)))
  ++ [Upload.RemoveFile; Upload.Drag dragleave].

End WithEngine.

End UploadView.

(* ===================================================================== *)
(** * The duplicate's result card                                         *)
(* ===================================================================== *)

Module UploadLegacyView.
Import JS Web.

Definition getResultColor (prediction : value) : string :=
  if strict_eq_str prediction "REAL" then "from-green-400 to-emerald-400"
  else if strict_eq_str prediction "FAKE" then "from-red-400 to-rose-400"
  else if strict_eq_str prediction "SUSPICIOUS"
       then "from-yellow-400 to-orange-400"
  else "from-cyan-400 to-purple-400".

Definition getResultBg (prediction : value) : string :=
  if strict_eq_str prediction "REAL"
  then "bg-green-500/10 border-green-500/30"
  else if strict_eq_str prediction "FAKE"
       then "bg-red-500/10 border-red-500/30"
  else if strict_eq_str prediction "SUSPICIOUS"
       then "bg-yellow-500/10 border-yellow-500/30"
  else "bg-white/5 border-white/10".

Definition headline (prediction : value) : string :=
  (if strict_eq_str prediction "REAL" then "✓ Content Verified"
   else EmptyString) ++
  (if strict_eq_str prediction "FAKE" then "⚠ Deepfake Detected"
   else EmptyString) ++
  (if strict_eq_str prediction "SUSPICIOUS" then "? Suspicious Content"
   else EmptyString).

Definition confidence_text `{Engine} (confidence : Number) : string :=
  Fixed.toFixed (mulN confidence (ofZ 100)) 1 ++ "%".

(** The items of the "How to interpret" list. *)
Definition interpretation (prediction : value) : list string :=
  (if strict_eq_str prediction "REAL"
   then ["• High confidence that this is authentic content";
         "• Detection model found no signs of artificial manipulation";
         "• Safe to share and trust this media"]
   else []) ++
  (if strict_eq_str prediction "FAKE"
   then ["• High confidence deepfake detected using EfficientNet model";
         "• Content shows signatures of AI-generated facial manipulation";
         "• Do not share or trust this media as authentic"]
   else []) ++
  (if strict_eq_str prediction "SUSPICIOUS"
   then ["• Detection model has moderate confidence of manipulation";
         "• Verify with manual inspection recommended";
         "• Content quality or compression may affect analysis"]
   else []).

(** The cells the two components share, except the error. *)
Definition alike (s : Upload.State) (s' : UploadLegacy.State) : Prop :=
  Upload.file s = UploadLegacy.file s' /\
  Upload.preview s = UploadLegacy.preview s' /\
  Upload.loading s = UploadLegacy.loading s' /\
  Upload.result s = UploadLegacy.result s' /\
  Upload.dragActive s = UploadLegacy.dragActive s'.

(** The two worlds agree on everything but the error. *)
Definition alike_worlds (w : Upload.World) (w' : UploadLegacy.World)
  : Prop :=
  alike (Upload.ui w) (UploadLegacy.ui w') /\
  Forall2 SideBySide.same_but_flag (Upload.fetches w)
          (UploadLegacy.fetches w') /\
  Upload.reads w = UploadLegacy.reads w'.

End UploadLegacyView.

(* ===================================================================== *)
(** * The FAQ section                                                     *)
(* ===================================================================== *)

Module Faq.

(** The cell [openIndex]: [None] is [null]. *)
Definition State : Type := option nat.

Definition initial : State := None.

(** The number of entries of [faqs]. *)
Definition faqs_length : nat := 5.

(** [openIndex === index] *)
Definition is_open (openIndex : State) (index : nat) : bool :=
  match openIndex with
  | Some j => (j =? index)%nat
  | None => false
  end.

Definition toggleFaq (index : nat) (openIndex : State) : State :=
  if is_open openIndex index then None else Some index.

(** The question buttons clicked one after the other. *)
Definition clicks (indices : list nat) (openIndex : State) : State :=
  fold_left (fun s index => toggleFaq index s) indices openIndex.

(** The entries whose answer is rendered. *)
Definition answers_shown (openIndex : State) : list nat :=
  filter (is_open openIndex) (seq 0 faqs_length).

End Faq.

(* ===================================================================== *)
(** * Properties                                                          *)
(* ===================================================================== *)

Import JS Web.

(** ** Values *)

Lemma strict_eq_str_true (v : value) (s : string) :
  strict_eq_str v s = true <-> v = VStr s.
Proof.
  destruct v; simpl; split; intro E; try discriminate.
  - apply String.eqb_eq in E. now subst.
  - injection E as ->. apply String.eqb_refl.
Qed.

Lemma strict_eq_str_false (v : value) (s : string) :
  strict_eq_str v s = false <-> v <> VStr s.
Proof.
  rewrite <- strict_eq_str_true. destruct (strict_eq_str v s); split; congruence.
Qed.

(** ** Selection of a file *)

Lemma workflowState_Ready (s : Upload.State) :
  Upload.workflowState s = Upload.Ready <->
  Upload.loading s = false /\ ToBoolean (Upload.result s) = false /\
  Upload.file s <> None /\ Upload.error s = None.
Proof.
  unfold Upload.workflowState.
  destruct (Upload.loading s), (ToBoolean (Upload.result s)),
    (Upload.file s), (Upload.error s); split; intro E;
    try discriminate; try tauto;
    try (destruct E as (? & ? & ? & ?); congruence).
  repeat split; congruence.
Qed.

(** C7, as the code has it.  For every file whose declared MIME type
    begins with [video/], selecting it through the picker or dropping it
    stores that file and clears the error and the result; the loading flag
    is left as it was, so the workflow is [Ready] unless a request is in
    flight, in which case it stays [Submitting] with the new file. *)
Theorem video_selection_accepted
    (s : Upload.State) (f : MediaFile) (others : list MediaFile) :
  prefix "video/" (type f) = true ->
  let picked := fst (Upload.handleFileSelect (Some f) s) in
  let dropped := fst (Upload.handleDrop (f :: others) s) in
  picked = Upload.setResult VNull
             (Upload.setError None (Upload.setFile (Some f) s)) /\
  dropped = Upload.setResult VNull
              (Upload.setError None
                 (Upload.setFile (Some f) (Upload.setDragActive false s))) /\
  Upload.file picked = Some f /\ Upload.file dropped = Some f /\
  Upload.error picked = None /\ Upload.error dropped = None /\
  Upload.result picked = VNull /\ Upload.result dropped = VNull /\
  Upload.loading picked = Upload.loading s /\
  Upload.loading dropped = Upload.loading s /\
  Upload.workflowState picked =
    (if Upload.loading s then Upload.Submitting else Upload.Ready) /\
  Upload.workflowState dropped =
    (if Upload.loading s then Upload.Submitting else Upload.Ready).
Proof.
  intros V picked dropped. subst picked dropped.
  unfold Upload.handleDrop, Upload.handleFileSelect. rewrite V. simpl.
  unfold Upload.workflowState. simpl.
  destruct (Upload.loading s); repeat split; reflexivity.
Qed.

Lemma video_selection_accepted_witness :
  prefix "video/" (type Samples.clip) = true /\
  Upload.workflowState
    (fst (Upload.handleFileSelect (Some Samples.clip) Upload.initial))
  = Upload.Ready.
Proof.
  split; [reflexivity|].
  destruct (video_selection_accepted Upload.initial Samples.clip [] eq_refl)
    as (_ & _ & _ & _ & _ & _ & _ & _ & _ & _ & W & _).
  exact W.
Defined.

(** C7 as stated fails: while a request is in flight the form is still
    rendered, a video dropped or picked then replaces the file, and the
    workflow is [Submitting], not [Ready]. *)
Lemma selection_while_submitting_not_ready :
  let w := @Upload.run Samples.chrome Upload.start
             [Upload.Pick (Some Samples.clip); Upload.Submit] in
  let w' := @Upload.dispatch Samples.chrome w
              (Upload.Pick (Some Samples.other_clip)) in
  prefix "video/" (type Samples.other_clip) = true /\
  @Upload.enabled Samples.chrome w (Upload.Pick (Some Samples.other_clip)) = true /\
  Upload.file (Upload.ui w') = Some Samples.other_clip /\
  Upload.workflowState (Upload.ui w') = Upload.Submitting /\
  Upload.workflowState (Upload.ui w') <> Upload.Ready.
Proof.
  cbv zeta. repeat split; try reflexivity. discriminate.
Qed.

(** C8.  Selecting a file whose declared MIME type does not begin with
    [video/], or no file at all, sets the validation error and starts
    nothing; the accepted file and the result are as before, and with no
    accepted file the workflow is not [Ready].  A dropped file goes the
    same way. *)
Theorem invalid_selection_rejected
    (s : Upload.State) (selectedFile : option MediaFile) :
  Upload.not_a_video selectedFile ->
  let s' := fst (Upload.handleFileSelect selectedFile s) in
  Upload.handleFileSelect selectedFile s =
    (Upload.setError (Some "Please select a valid video file") s, []) /\
  Upload.error s' = Some "Please select a valid video file" /\
  Upload.file s' = Upload.file s /\
  Upload.result s' = Upload.result s /\
  Upload.loading s' = Upload.loading s /\
  Upload.selectedVisualization s' = Upload.selectedVisualization s /\
  (Upload.file s = None -> Upload.workflowState s' <> Upload.Ready) /\
  (forall f others, selectedFile = Some f ->
     let d := fst (Upload.handleDrop (f :: others) s) in
     Upload.error d = Some "Please select a valid video file" /\
     Upload.file d = Upload.file s /\ Upload.result d = Upload.result s).
Proof.
  intros R s'.
  assert (E : Upload.handleFileSelect selectedFile s =
              (Upload.setError (Some "Please select a valid video file") s, [])).
  { unfold Upload.handleFileSelect. destruct selectedFile as [f|]; simpl in R.
    - now rewrite R.
    - reflexivity. }
  subst s'. rewrite E. simpl. repeat split; try reflexivity.
  - intros N R'. apply workflowState_Ready in R'. simpl in R'.
    destruct R' as (_ & _ & F & _). contradiction.
  - subst selectedFile. simpl in R. unfold Upload.handleDrop, Upload.handleFileSelect.
    now rewrite R.
  - subst selectedFile. simpl in R. unfold Upload.handleDrop, Upload.handleFileSelect.
    now rewrite R.
  - subst selectedFile. simpl in R. unfold Upload.handleDrop, Upload.handleFileSelect.
    now rewrite R.
Qed.

Lemma invalid_selection_rejected_witness :
  Upload.not_a_video (Some Samples.notes) /\
  Upload.error
    (fst (Upload.handleFileSelect (Some Samples.notes)
            Upload.initial)) = Some "Please select a valid video file".
Proof.
  split; [reflexivity|].
  exact (proj1 (proj2 (invalid_selection_rejected
                         Upload.initial (Some Samples.notes) eq_refl))).
Defined.

(** ** Presentation of a verdict *)

(** C9.  The three recognised predictions have their own accent theme,
    card theme and headline, pairwise different and different from the
    default; every other prediction value, string or not, gets the default
    themes and an empty headline.  The three functions are total: they
    return for every value. *)
Theorem presentation_total :
  (Upload.getResultColor (VStr "REAL") = "from-green-400 to-emerald-400" /\
   Upload.getResultColor (VStr "FAKE") = "from-red-400 to-rose-400" /\
   Upload.getResultColor (VStr "SUSPICIOUS") = "from-yellow-400 to-orange-400") /\
  (Upload.getResultBg (VStr "REAL") = "bg-green-500/10 border-green-500/30" /\
   Upload.getResultBg (VStr "FAKE") = "bg-red-500/10 border-red-500/30" /\
   Upload.getResultBg (VStr "SUSPICIOUS") = "bg-yellow-500/10 border-yellow-500/30") /\
  (Upload.headline (VStr "REAL") = "✓ Content Verified" /\
   Upload.headline (VStr "FAKE") = "⚠ Deepfake Detected" /\
   Upload.headline (VStr "SUSPICIOUS") = "? Suspicious Content") /\
  NoDup [Upload.getResultColor (VStr "REAL"); Upload.getResultColor (VStr "FAKE");
         Upload.getResultColor (VStr "SUSPICIOUS"); Upload.getResultColor VUndefined] /\
  NoDup [Upload.getResultBg (VStr "REAL"); Upload.getResultBg (VStr "FAKE");
         Upload.getResultBg (VStr "SUSPICIOUS"); Upload.getResultBg VUndefined] /\
  NoDup [Upload.headline (VStr "REAL"); Upload.headline (VStr "FAKE");
         Upload.headline (VStr "SUSPICIOUS"); Upload.headline VUndefined] /\
  (forall prediction : value,
     prediction <> VStr "REAL" -> prediction <> VStr "FAKE" ->
     prediction <> VStr "SUSPICIOUS" ->
     Upload.getResultColor prediction = "from-cyan-400 to-purple-400" /\
     Upload.getResultBg prediction = "bg-white/5 border-white/10" /\
     Upload.headline prediction = EmptyString).
Proof.
  assert (D : forall a b c d : string,
             (a =? b) = false -> (a =? c) = false -> (a =? d) = false ->
             (b =? c) = false -> (b =? d) = false -> (c =? d) = false ->
             NoDup [a; b; c; d]).
  { intros a b c d ab ac ad bc bd cd.
    apply String.eqb_neq in ab, ac, ad, bc, bd, cd.
    repeat constructor; simpl; intuition congruence. }
  split; [|split; [|split; [|split; [|split; [|split]]]]];
    try (repeat split; reflexivity); try (apply D; reflexivity).
  intros prediction R F S.
  apply strict_eq_str_false in R, F, S.
  unfold Upload.getResultColor, Upload.getResultBg, Upload.headline.
  now rewrite R, F, S.
Qed.

Lemma presentation_total_witness :
  Upload.getResultColor (VStr "UNKNOWN") = "from-cyan-400 to-purple-400" /\
  Upload.getResultBg (VStr "UNKNOWN") = "bg-white/5 border-white/10" /\
  Upload.headline (VStr "UNKNOWN") = EmptyString.
Proof.
  destruct presentation_total as (_ & _ & _ & _ & _ & _ & D).
  apply D; discriminate.
Defined.

(** ** What a settled request writes *)

Section Settling.
Context `{Engine}.

Lemma settled_rejected (e : Error) (s : Upload.State) :
  snd (Upload.handleSubmit_settled (Rejected e) s)
  = Upload.setLoading false (Upload.setError (Some (shown_message e)) s).
Proof. reflexivity. Qed.

Lemma settled_unparseable (r : Response) (e : Error) (s : Upload.State) :
  json r = Throw e ->
  snd (Upload.handleSubmit_settled (Responded r) s)
  = Upload.setLoading false (Upload.setError (Some (shown_message e)) s).
Proof.
  intros J. unfold Upload.handleSubmit_settled, try_catch_finally, bind, eval.
  simpl. destruct (ok r); simpl; rewrite J; reflexivity.
Qed.

Lemma settled_error_thrown (r : Response) (body : value) (e : Error)
    (s : Upload.State) :
  ok r = false -> json r = Normal body -> Get body "detail" = Throw e ->
  snd (Upload.handleSubmit_settled (Responded r) s)
  = Upload.setLoading false (Upload.setError (Some (shown_message e)) s).
Proof.
  intros K J G. unfold Upload.handleSubmit_settled, try_catch_finally, bind, eval.
  simpl. rewrite K. simpl. rewrite J, G. reflexivity.
Qed.

Lemma settled_detail (r : Response) (body : value) (detail : string)
    (s : Upload.State) :
  ok r = false -> json r = Normal body ->
  Get body "detail" = Normal (VStr detail) -> detail <> EmptyString ->
  snd (Upload.handleSubmit_settled (Responded r) s)
  = Upload.setLoading false (Upload.setError (Some detail) s).
Proof.
  intros K J G N. apply String.eqb_neq in N.
  unfold Upload.handleSubmit_settled, try_catch_finally, bind, eval, throw.
  simpl. rewrite K. simpl. rewrite J, G. simpl. rewrite N. simpl.
  unfold shown_message, or_else. simpl. now rewrite N.
Qed.

Lemma settled_no_detail (r : Response) (body detail : value)
    (s : Upload.State) :
  ok r = false -> json r = Normal body ->
  Get body "detail" = Normal detail -> ToBoolean detail = false ->
  snd (Upload.handleSubmit_settled (Responded r) s)
  = Upload.setLoading false (Upload.setError (Some "Analysis failed") s).
Proof.
  intros K J G F.
  unfold Upload.handleSubmit_settled, try_catch_finally, bind, eval, throw.
  simpl. rewrite K. simpl. rewrite J, G, F. reflexivity.
Qed.

Lemma settled_ok (r : Response) (data : value) (s : Upload.State) :
  ok r = true -> json r = Normal data ->
  snd (Upload.handleSubmit_settled (Responded r) s)
  = Upload.setLoading false
      (match Upload.has_frames data with
       | Normal true =>
           Upload.setSelectedVisualization 0 (Upload.setResult data s)
       | Normal false => Upload.setResult data s
       | Throw e => Upload.setError (Some (shown_message e)) (Upload.setResult data s)
       end).
Proof.
  intros K J.
  unfold Upload.handleSubmit_settled, try_catch_finally, bind, eval.
  simpl. rewrite K. simpl. rewrite J. simpl.
  destruct (Upload.has_frames data) as [[|]|e]; reflexivity.
Qed.

End Settling.

(** ** Failed submissions *)

(** C1, as the code has it.  For a response with a non-success status the
    handler stops loading and shows an error, leaving everything else as
    it was: the [detail] of the body when it is a non-empty string,
    ["Analysis failed"] when the body parses and its [detail] is absent or
    falsy, and when the body does not parse the message of the error
    [response.json()] rejected with, the generic text standing in only for
    an empty message.  With a file selected and no result on display the
    workflow is then [Failed]. *)
Theorem failed_response_message `{Engine} (r : Response) (s : Upload.State) :
  ok r = false ->
  let s' := snd (Upload.handleSubmit_settled (Responded r) s) in
  (forall body detail,
     json r = Normal body -> Get body "detail" = Normal (VStr detail) ->
     detail <> EmptyString ->
     s' = Upload.setLoading false (Upload.setError (Some detail) s)) /\
  (forall body detail,
     json r = Normal body -> Get body "detail" = Normal detail ->
     ToBoolean detail = false ->
     s' = Upload.setLoading false
            (Upload.setError (Some "Analysis failed") s)) /\
  (forall e,
     json r = Throw e ->
     s' = Upload.setLoading false
            (Upload.setError
               (Some (shown_message e)) s)) /\
  (forall msg,
     s' = Upload.setLoading false (Upload.setError (Some msg) s) ->
     Upload.file s <> None -> ToBoolean (Upload.result s) = false ->
     Upload.workflowState s' = Upload.Failed).
Proof.
  intros K s'. subst s'. repeat split.
  - intros body detail J G N. now apply settled_detail with (body := body).
  - intros body detail J G F. now apply settled_no_detail with (body := body) (detail := detail).
  - intros e J. now apply settled_unparseable.
  - intros msg -> F R. unfold Upload.workflowState. simpl. rewrite R.
    destruct (Upload.file s); congruence.
Qed.

(** HTTP 500 with [{"detail":"file too large"}] after a submission: the
    workflow is [Failed] with exactly that message. *)
Lemma failed_response_message_witness :
  let w := @Upload.run Samples.chrome Upload.start
             [Upload.Pick (Some Samples.clip); Upload.Submit;
              Upload.FetchSettled 0 Samples.too_large] in
  ok (mkResponse 500 (Normal (VObj [("detail", VStr "file too large")])))
  = false /\
  Upload.error (Upload.ui w) = Some "file too large" /\
  Upload.workflowState (Upload.ui w) = Upload.Failed.
Proof.
  cbv zeta. split; [reflexivity|].
  pose proof (@failed_response_message Samples.chrome
                (mkResponse 500 (Normal (VObj [("detail", VStr "file too large")])))
                (Upload.ui (@Upload.run Samples.chrome Upload.start
                              [Upload.Pick (Some Samples.clip); Upload.Submit]))
                eq_refl) as (D & _ & _ & F).
  specialize (D _ "file too large" eq_refl eq_refl ltac:(discriminate)).
  specialize (F _ D ltac:(discriminate) eq_refl).
  split; [now rewrite D in * | exact F].
Defined.

(** C1 as stated fails in its second half: for a body that is not JSON the
    error shown is the parser's message, not a generic fallback. *)
Lemma unparseable_body_shows_parser_message :
  let w := @Upload.run Samples.chrome Upload.start
             [Upload.Pick (Some Samples.clip); Upload.Submit;
              Upload.FetchSettled 0 Samples.bad_gateway] in
  Upload.workflowState (Upload.ui w) = Upload.Failed /\
  Upload.error (Upload.ui w) = Some "Unexpected end of JSON input" /\
  Upload.error (Upload.ui w) <> Some "Analysis failed" /\
  Upload.error (Upload.ui w)
  <> Some "Error analyzing video. Make sure the backend is running.".
Proof.
  cbv zeta. repeat split; try reflexivity; discriminate.
Qed.

(** ** Late responses *)

(** C2, as the code has it.  The handler has no stale-response guard: a
    settled request is applied to whatever the state is by then.  In
    particular, after the file was removed or replaced while the request
    was in flight, a successful response still becomes the result and a
    failed one still becomes the error; the file cell is not consulted and
    not changed. *)
Theorem late_response_applied `{Engine} (s : Upload.State) :
  (forall o, let s' := snd (Upload.handleSubmit_settled o s) in
     Upload.loading s' = false /\ Upload.file s' = Upload.file s) /\
  (forall r data f,
     ok r = true -> json r = Normal data ->
     Upload.result (snd (Upload.handleSubmit_settled (Responded r) s)) = data /\
     Upload.result (snd (Upload.handleSubmit_settled (Responded r)
                           (Upload.remove_file_onClick s))) = data /\
     Upload.result (snd (Upload.handleSubmit_settled (Responded r)
                           (fst (Upload.handleFileSelect (Some f) s)))) = data) /\
  (forall e f,
     Upload.error (snd (Upload.handleSubmit_settled (Rejected e) s))
     = Some (shown_message e) /\
     Upload.error (snd (Upload.handleSubmit_settled (Rejected e)
                          (Upload.remove_file_onClick s)))
     = Some (shown_message e) /\
     Upload.error (snd (Upload.handleSubmit_settled (Rejected e)
                          (fst (Upload.handleFileSelect (Some f) s))))
     = Some (shown_message e)).
Proof.
  assert (R : forall r data s0, ok r = true -> json r = Normal data ->
            Upload.result (snd (Upload.handleSubmit_settled (Responded r) s0)) = data).
  { intros r data s0 K J. rewrite (settled_ok r data s0 K J).
    destruct (Upload.has_frames data) as [[|]|e]; reflexivity. }
  repeat split.
  - destruct o as [r|e]; [|reflexivity].
    destruct (json r) as [data|e] eqn:J.
    + destruct (ok r) eqn:K.
      * rewrite (settled_ok r data s K J). reflexivity.
      * destruct (Get data "detail") as [detail|e] eqn:G.
        -- unfold Upload.handleSubmit_settled, try_catch_finally, bind, eval, throw.
           simpl. rewrite K. simpl. rewrite J, G.
           destruct (new_Error _); reflexivity.
        -- rewrite (settled_error_thrown r data e s K J G). reflexivity.
    + rewrite (settled_unparseable r e s J). reflexivity.
  - destruct o as [r|e]; [|reflexivity].
    destruct (json r) as [data|e] eqn:J.
    + destruct (ok r) eqn:K.
      * rewrite (settled_ok r data s K J).
        destruct (Upload.has_frames data) as [[|]|e]; reflexivity.
      * destruct (Get data "detail") as [detail|e] eqn:G.
        -- unfold Upload.handleSubmit_settled, try_catch_finally, bind, eval, throw.
           simpl. rewrite K. simpl. rewrite J, G.
           destruct (new_Error _); reflexivity.
        -- rewrite (settled_error_thrown r data e s K J G). reflexivity.
    + rewrite (settled_unparseable r e s J). reflexivity.
  - now apply R.
  - now apply R.
  - now apply R.
Qed.

Lemma late_response_applied_witness :
  Upload.result
    (snd (@Upload.handleSubmit_settled Samples.chrome Samples.verdict_arrives
            (Upload.remove_file_onClick
               (Upload.ui (@Upload.run Samples.chrome Upload.start
                  [Upload.Pick (Some Samples.clip); Upload.Submit])))))
  = Samples.fake_verdict.
Proof.
  destruct (@late_response_applied Samples.chrome
              (Upload.ui (@Upload.run Samples.chrome Upload.start
                 [Upload.Pick (Some Samples.clip); Upload.Submit])))
    as (_ & R & _).
  exact (proj1 (proj2 (R (mkResponse 200 (Normal Samples.fake_verdict))
                         Samples.fake_verdict Samples.clip eq_refl eq_refl))).
Defined.

(** C2 as stated fails: the response of a request abandoned by removing
    the file, or by replacing it, is applied when it arrives. *)
Lemma stale_response_overwrites_reset :
  let removed := @Upload.run Samples.chrome Upload.start
                   [Upload.Pick (Some Samples.clip); Upload.Submit;
                    Upload.RemoveFile] in
  let replaced := @Upload.run Samples.chrome Upload.start
                    [Upload.Pick (Some Samples.clip); Upload.Submit;
                     Upload.Pick (Some Samples.other_clip)] in
  let late := Upload.FetchSettled 0 Samples.verdict_arrives in
  Upload.file (Upload.ui removed) = None /\
  Upload.result (Upload.ui (@Upload.dispatch Samples.chrome removed late))
  = Samples.fake_verdict /\
  Upload.workflowState (Upload.ui (@Upload.dispatch Samples.chrome removed late))
  = Upload.Resulted /\
  Upload.file (Upload.ui replaced) = Some Samples.other_clip /\
  Upload.result (Upload.ui (@Upload.dispatch Samples.chrome replaced late))
  = Samples.fake_verdict /\
  Upload.workflowState (Upload.ui (@Upload.dispatch Samples.chrome replaced late))
  = Upload.Resulted.
Proof.
  cbv zeta. repeat split; reflexivity.
Qed.

(** ** The reachable worlds *)

Section Reachable.
Context `{Engine}.

Lemma remove_nth_length {A} (i : nat) (l : list A) :
  i < List.length l -> List.length (remove_nth i l) = List.length l - 1.
Proof.
  revert i. induction l as [|x l IH]; intros i L; simpl in *.
  - lia.
  - destruct i as [|i]; simpl.
    + lia.
    + rewrite IH by lia. lia.
Qed.

(** On a parsed object whose [gradcam_frames] is an array, the test of the
    handler holds exactly when the array is not empty. *)
Lemma has_frames_array (members : list (string * value))
    (items : list value) :
  own members "gradcam_frames" = Some (VArr items) ->
  Upload.has_frames (VObj members)
  = Normal (match items with [] => false | _ :: _ => true end).
Proof.
  intros O. unfold Upload.has_frames. simpl. rewrite O. simpl.
  unfold gt_zero, ToNumber, ofLength.
  destruct items as [|x items]; [reflexivity|].
  change (Z.of_nat (List.length (x :: items)))
    with (Zpos (Pos.of_succ_nat (List.length items))).
  cbv iota beta.
  destruct (prec - Zpos (digits2_pos (Pos.of_succ_nat (List.length items))))%Z;
    reflexivity.
Qed.

(** Whatever settles, the selected index afterwards is 0 if it was 0. *)
Lemma settled_selection (o : FetchOutcome) (s : Upload.State) :
  Upload.selectedVisualization s = 0 ->
  Upload.selectedVisualization (snd (Upload.handleSubmit_settled o s)) = 0.
Proof.
  intros Z. destruct o as [r|e]; [|exact Z].
  destruct (json r) as [data|e] eqn:J.
  - destruct (ok r) eqn:K.
    + rewrite (settled_ok r data s K J).
      destruct (Upload.has_frames data) as [[|]|e]; simpl; auto.
    + destruct (Get data "detail") as [detail|e] eqn:G.
      * unfold Upload.handleSubmit_settled, try_catch_finally, bind, eval, throw.
        simpl. rewrite K. simpl. rewrite J, G.
        destruct (new_Error _); exact Z.
      * now rewrite (settled_error_thrown r data e s K J G).
  - now rewrite (settled_unparseable r e s J).
Qed.

Lemma settled_loading (o : FetchOutcome) (s : Upload.State) :
  Upload.loading (snd (Upload.handleSubmit_settled o s)) = false.
Proof.
  destruct o as [r|e]; [|reflexivity].
  destruct (json r) as [data|e] eqn:J.
  - destruct (ok r) eqn:K.
    + now rewrite (settled_ok r data s K J).
    + destruct (Get data "detail") as [detail|e] eqn:G.
      * unfold Upload.handleSubmit_settled, try_catch_finally, bind, eval, throw.
        simpl. rewrite K. simpl. rewrite J, G.
        destruct (new_Error _); reflexivity.
      * now rewrite (settled_error_thrown r data e s K J G).
  - now rewrite (settled_unparseable r e s J).
Qed.

Lemma invariant_start : Upload.invariant Upload.start.
Proof.
  constructor; simpl; try reflexivity; try discriminate.
  intros N. now contradiction N.
Qed.

Lemma handleFileSelect_invariant (w : Upload.World) (f : option MediaFile) :
  Upload.form_view (Upload.ui w) = true ->
  Upload.invariant w ->
  Upload.invariant (Upload.started w (Upload.handleFileSelect f (Upload.ui w))).
Proof.
  intros V [I1 I2 I3 I4]. unfold Upload.form_view in V.
  apply negb_true_iff in V. specialize (I3 V).
  unfold Upload.handleFileSelect.
  destruct f as [f|]; [destruct (prefix "video/" (type f))|];
    constructor; simpl; auto.
  intros N. now contradiction N.
Qed.

Lemma dispatch_invariant (w : Upload.World) (e : Upload.Event) :
  Upload.invariant w -> Upload.invariant (Upload.dispatch w e).
Proof.
  intros I. unfold Upload.dispatch.
  destruct (Upload.enabled w e) eqn:En; [|exact I].
  destruct e as [f|t|files| | | |idx|i o|i]; simpl in En |- *.
  - now apply handleFileSelect_invariant.
  - destruct I as [I1 I2 I3 I4].
    destruct t; constructor; simpl; auto.
  - unfold Upload.handleDrop. destruct files as [|f files].
    + destruct I as [I1 I2 I3 I4]. constructor; simpl; auto.
    + apply (handleFileSelect_invariant
               (Upload.mkWorld (Upload.setDragActive false (Upload.ui w))
                               (Upload.fetches w) (Upload.reads w))
               (Some f)).
      * exact En.
      * destruct I as [I1 I2 I3 I4]. constructor; simpl; auto.
  - apply andb_true_iff in En. destruct En as [V D].
    unfold Upload.form_view in V. apply negb_true_iff in V.
    unfold Upload.submit_disabled in D. unfold Upload.handleSubmit.
    destruct I as [I1 I2 I3 I4].
    destruct (Upload.file (Upload.ui w)) as [f|]; [|discriminate].
    apply negb_true_iff in D. rewrite D in I1.
    constructor; simpl; auto.
    rewrite length_app, I1. reflexivity.
  - apply andb_true_iff in En. destruct En as [V _].
    unfold Upload.form_view in V. apply negb_true_iff in V.
    destruct I as [I1 I2 I3 I4]. constructor; simpl; auto.
    intros N. now contradiction N.
  - destruct I as [I1 I2 I3 I4]. constructor; simpl; auto.
    intros N. now contradiction N.
  - apply andb_true_iff in En. destruct En as [V T].
    unfold Upload.form_view in V. rewrite negb_involutive in V.
    unfold Upload.thumbnail_rendered in T. apply andb_true_iff in T.
    destruct T as [_ T]. apply Nat.ltb_lt in T.
    destruct I as [I1 I2 I3 I4]. constructor; simpl; auto.
    + congruence.
  - apply Nat.ltb_lt in En.
    destruct I as [I1 I2 I3 I4].
    destruct (Upload.loading (Upload.ui w)) eqn:L; [|lia].
    specialize (I3 (I2 eq_refl)).
    pose proof (settled_selection o _ I3) as Z.
    pose proof (settled_loading o (Upload.ui w)) as L'.
    constructor; simpl.
    + rewrite L', remove_nth_length by lia. lia.
    + rewrite L'. discriminate.
    + intros _. exact Z.
    + rewrite Z.
      match goal with
      | |- ?l <> [] -> _ => destruct l; [intros N; now contradiction N|]
      end.
      simpl. lia.
  - destruct (nth_error (Upload.reads w) i); [|exact I].
    destruct I as [I1 I2 I3 I4]. constructor; simpl; auto.
Qed.

Lemma reachable_invariant (w : Upload.World) :
  Upload.reachable w -> Upload.invariant w.
Proof.
  induction 1 as [|w e R IH].
  - exact invariant_start.
  - now apply dispatch_invariant.
Qed.

Lemma run_reachable (w : Upload.World) (es : list Upload.Event) :
  Upload.reachable w -> Upload.reachable (Upload.run w es).
Proof.
  revert w. induction es as [|e es IH]; intros w R; simpl.
  - exact R.
  - apply IH. now constructor.
Qed.

End Reachable.

(** ** Submission *)

(** C3, as the code has it.  Submitting does nothing when there is no
    file ([Idle]), while a request is in flight ([Submitting], the button
    is disabled) and while a result is on display ([Resulted], the form is
    not rendered).  From [Ready] and from [Failed], where the file is kept
    and the button is enabled, it clears the error, sets the loading flag
    and issues one request.  In every reachable world at most one request
    is in flight. *)
Theorem submit_guard `{Engine} (w : Upload.World) :
  (Upload.workflowState (Upload.ui w) = Upload.Idle \/
   Upload.workflowState (Upload.ui w) = Upload.Submitting \/
   Upload.workflowState (Upload.ui w) = Upload.Resulted ->
   Upload.dispatch w Upload.Submit = w) /\
  (Upload.file (Upload.ui w) = None ->
   Upload.handleSubmit (Upload.ui w) = (Upload.ui w, [])) /\
  (Upload.workflowState (Upload.ui w) = Upload.Ready \/
   Upload.workflowState (Upload.ui w) = Upload.Failed ->
   exists f, Upload.file (Upload.ui w) = Some f /\
     Upload.dispatch w Upload.Submit
     = Upload.mkWorld
         (Upload.setError None (Upload.setLoading true (Upload.ui w)))
         (Upload.fetches w ++
            [mkRequest (API_URL ++ "/predict-video?include_gradcam=true")
                       "POST" [("file", f)]])
         (Upload.reads w)) /\
  (Upload.reachable w ->
   List.length (Upload.fetches w) <= 1 /\
   List.length (Upload.fetches (Upload.dispatch w Upload.Submit)) <= 1).
Proof.
  assert (B : forall w0, Upload.invariant w0 ->
                List.length (Upload.fetches w0) <= 1).
  { intros w0 I. rewrite (Upload.pending_iff_loading w0 I).
    destruct (Upload.loading (Upload.ui w0)); lia. }
  split; [|split; [|split]].
  4: { intros R. split; apply B; apply reachable_invariant;
       [exact R | now constructor]. }
  all: unfold Upload.dispatch, Upload.workflowState; simpl;
    unfold Upload.form_view, Upload.submit_disabled, Upload.handleSubmit.
  - destruct (Upload.loading (Upload.ui w)),
      (ToBoolean (Upload.result (Upload.ui w))),
      (Upload.file (Upload.ui w)), (Upload.error (Upload.ui w));
      simpl; intros [E|[E|E]]; try discriminate; reflexivity.
  - now intros ->.
  - destruct (Upload.loading (Upload.ui w)),
      (ToBoolean (Upload.result (Upload.ui w))),
      (Upload.file (Upload.ui w)) as [f|], (Upload.error (Upload.ui w));
      simpl; intros [E|E]; try discriminate; exists f; split; reflexivity.
Qed.

Lemma submit_guard_witness :
  let w := @Upload.run Samples.chrome Upload.start
             [Upload.Pick (Some Samples.clip); Upload.Submit] in
  Upload.workflowState (Upload.ui w) = Upload.Submitting /\
  @Upload.dispatch Samples.chrome w Upload.Submit = w /\
  List.length (Upload.fetches w) <= 1.
Proof.
  cbv zeta.
  destruct (@submit_guard Samples.chrome
              (@Upload.run Samples.chrome Upload.start
                 [Upload.Pick (Some Samples.clip); Upload.Submit]))
    as (N & _ & _ & R).
  split; [reflexivity|]. split.
  - apply N. right. left. reflexivity.
  - apply R. apply run_reachable. constructor.
Defined.

(** C3 as stated fails for [Failed]: after a failed submission the file is
    kept and the button is enabled, and submitting again clears the error
    and issues a second request. *)
Lemma resubmit_from_failed :
  let w := @Upload.run Samples.chrome Upload.start
             [Upload.Pick (Some Samples.clip); Upload.Submit;
              Upload.FetchSettled 0 Samples.too_large] in
  let w' := @Upload.dispatch Samples.chrome w Upload.Submit in
  Upload.workflowState (Upload.ui w) = Upload.Failed /\
  Upload.fetches w = [] /\
  w' <> w /\
  Upload.workflowState (Upload.ui w') = Upload.Submitting /\
  Upload.error (Upload.ui w') = None /\
  Upload.fetches w'
  = [mkRequest "http://localhost:8000/predict-video?include_gradcam=true"
               "POST" [("file", Samples.clip)]].
Proof.
  cbv zeta. repeat split; try reflexivity. discriminate.
Qed.

(** ** Reset *)

(** C4, on the code.  "Analyze Another" clears the file, the preview, the
    result and the error and puts the selected index back to 0; with no
    request in flight, as in [Resulted], that is [Idle].  The remove-file
    button, the only reset the form offers after a failure, clears the
    file, the preview and the result but leaves the error (and the
    selected index) as they are: after the failed submission of the sample
    clip the message stays on display with no file selected. *)
Theorem reset_controls :
  (forall s : Upload.State,
     Upload.analyze_another_onClick s
     = Upload.mkState None None (Upload.loading s) VNull None
                      (Upload.dragActive s) 0) /\
  (forall s : Upload.State,
     Upload.workflowState (Upload.analyze_another_onClick s)
     = if Upload.loading s then Upload.Submitting else Upload.Idle) /\
  (forall s : Upload.State,
     Upload.remove_file_onClick s
     = Upload.mkState None None (Upload.loading s) VNull (Upload.error s)
                      (Upload.dragActive s) (Upload.selectedVisualization s)) /\
  (let w := @Upload.run Samples.chrome Upload.start
              [Upload.Pick (Some Samples.clip); Upload.Submit;
               Upload.FetchSettled 0 Samples.too_large] in
   Upload.workflowState (Upload.ui w) = Upload.Failed /\
   @Upload.enabled Samples.chrome w Upload.AnalyzeAnother = false /\
   @Upload.enabled Samples.chrome w Upload.RemoveFile = true /\
   Upload.ui (@Upload.dispatch Samples.chrome w Upload.RemoveFile)
   = Upload.mkState None None false VNull (Some "file too large") false 0).
Proof.
  repeat split.
Qed.

(** ** Evidence frames *)

(** C5.  In every world the component can reach, if the result on display
    has evidence frames the selected index addresses one of them, and each
    event (a result arriving, a thumbnail clicked, a reset, any other)
    leads to a world where this holds again.  A successful response
    becomes the result with the selected index at 0. *)
Theorem selected_frame_in_range `{Engine} (w : Upload.World) :
  Upload.reachable w ->
  (Upload.evidenceFrames (Upload.ui w) <> [] ->
   Upload.selectedVisualization (Upload.ui w)
   < List.length (Upload.evidenceFrames (Upload.ui w))) /\
  (forall e : Upload.Event,
     let w' := Upload.dispatch w e in
     Upload.evidenceFrames (Upload.ui w') <> [] ->
     Upload.selectedVisualization (Upload.ui w')
     < List.length (Upload.evidenceFrames (Upload.ui w'))) /\
  (forall i r data,
     Upload.enabled w (Upload.FetchSettled i (Responded r)) = true ->
     ok r = true -> json r = Normal data ->
     let w' := Upload.dispatch w (Upload.FetchSettled i (Responded r)) in
     Upload.result (Upload.ui w') = data /\
     Upload.selectedVisualization (Upload.ui w') = 0).
Proof.
  intros R. pose proof (reachable_invariant w R) as I.
  split; [|split].
  - apply (Upload.selection_in_range w I).
  - intros e w'. apply Upload.selection_in_range.
    now apply dispatch_invariant.
  - intros i r data En K J w'. subst w'.
    unfold Upload.dispatch. rewrite En. simpl. split.
    + rewrite (settled_ok r data _ K J).
      destruct (Upload.has_frames data) as [[|]|e]; reflexivity.
    + simpl in En. apply Nat.ltb_lt in En. destruct I as [I1 I2 I3 I4].
      destruct (Upload.loading (Upload.ui w)) eqn:L; [|lia].
      apply settled_selection. auto.
Qed.

Lemma selected_frame_in_range_witness :
  let w := @Upload.run Samples.chrome Upload.start
             [Upload.Pick (Some Samples.clip); Upload.Submit;
              Upload.FetchSettled 0 Samples.frames_arrive;
              Upload.SelectThumbnail 2] in
  List.length (@Upload.evidenceFrames Samples.chrome (Upload.ui w)) = 3 /\
  Upload.selectedVisualization (Upload.ui w) = 2 /\
  Upload.selectedVisualization (Upload.ui w)
  < List.length (@Upload.evidenceFrames Samples.chrome (Upload.ui w)).
Proof.
  cbv zeta. split; [reflexivity|]. split; [reflexivity|].
  refine (proj1 (@selected_frame_in_range Samples.chrome
                   (@Upload.run Samples.chrome Upload.start
                      [Upload.Pick (Some Samples.clip); Upload.Submit;
                       Upload.FetchSettled 0 Samples.frames_arrive;
                       Upload.SelectThumbnail 2]) _) _).
  - apply run_reachable. constructor.
  - discriminate.
Defined.

(** ** The duplicate component *)

Lemma string_app_assoc (a b c : string) : ((a ++ b) ++ c = a ++ (b ++ c))%string.
Proof. induction a as [|x a IH]; simpl; [reflexivity | now rewrite IH]. Qed.

Section Duplicate.
Context `{Engine}.

Lemma agree_started (w : Upload.World) (w' : UploadLegacy.World)
    (s : Upload.State) (s' : UploadLegacy.State) (effs effs' : list Effect) :
  SideBySide.agree w w' ->
  SideBySide.shared s = s' ->
  Forall2 (fun a b =>
             match a, b with
             | StartRead f, StartRead f' => f = f'
             | StartFetch q, StartFetch q' => SideBySide.same_but_flag q q'
             | _, _ => False
             end) effs effs' ->
  SideBySide.agree (Upload.started w (s, effs))
                   (UploadLegacy.started w' (s', effs')).
Proof.
  intros (A1 & A2 & A3) S F.
  unfold Upload.started, UploadLegacy.started. simpl.
  assert (G : SideBySide.agree (Upload.mkWorld s (Upload.fetches w) (Upload.reads w))
                (UploadLegacy.mkWorld s' (UploadLegacy.fetches w')
                                      (UploadLegacy.reads w')))
    by (repeat split; assumption).
  clear A1 A2 A3 S.
  revert G.
  generalize (Upload.mkWorld s (Upload.fetches w) (Upload.reads w)).
  generalize (UploadLegacy.mkWorld s' (UploadLegacy.fetches w')
                                   (UploadLegacy.reads w')).
  induction F as [|a b effs effs' AB F IH]; intros v' v G; simpl.
  - exact G.
  - apply IH. destruct G as (G1 & G2 & G3).
    destruct a as [f|q], b as [f'|q']; try contradiction; simpl.
    + subst f'. repeat split; try assumption. now rewrite G3.
    + repeat split; try assumption.
      apply Forall2_app; [assumption|]. constructor; [assumption|constructor].
Qed.

Lemma agree_handleFileSelect (w : Upload.World) (w' : UploadLegacy.World)
    (f : option MediaFile) (s : Upload.State) :
  SideBySide.agree w w' ->
  SideBySide.agree
    (Upload.started w (Upload.handleFileSelect f s))
    (UploadLegacy.started w' (UploadLegacy.handleFileSelect f (SideBySide.shared s))).
Proof.
  intros A. unfold Upload.handleFileSelect, UploadLegacy.handleFileSelect.
  destruct f as [f|]; [destruct (prefix "video/" (type f))|];
    apply agree_started; try assumption; try reflexivity;
    repeat constructor.
Qed.

Lemma shared_settled (o : FetchOutcome) (s : Upload.State) :
  SideBySide.frames_test_throws o = false ->
  SideBySide.shared (snd (Upload.handleSubmit_settled o s))
  = snd (UploadLegacy.handleSubmit_settled o (SideBySide.shared s)).
Proof.
  intros T. destruct o as [r|e]; [|reflexivity].
  unfold Upload.handleSubmit_settled, UploadLegacy.handleSubmit_settled,
    try_catch_finally, bind, eval, throw.
  simpl in *. destruct (ok r); simpl in *.
  - destruct (json r) as [data|e]; [|reflexivity]. simpl.
    destruct (Upload.has_frames data) as [[|]|e]; try discriminate; reflexivity.
  - destruct (json r) as [data|e]; [|reflexivity]. simpl.
    destruct (Get data "detail") as [detail|e]; [|reflexivity].
    destruct (new_Error _); reflexivity.
Qed.

Lemma agree_remove_nth (i : nat) (l l' : list Request) :
  Forall2 SideBySide.same_but_flag l l' ->
  Forall2 SideBySide.same_but_flag (remove_nth i l) (remove_nth i l').
Proof.
  intros F. revert i. induction F as [|q q' l l' Q F IH]; intros i; simpl.
  - constructor.
  - destruct i as [|i]; [assumption|]. constructor; [assumption|apply IH].
Qed.

(** One event keeps the two components in agreement. *)
Lemma agree_dispatch (w : Upload.World) (w' : UploadLegacy.World)
    (e : UploadLegacy.Event) :
  SideBySide.agree w w' -> SideBySide.settles_alike e ->
  SideBySide.agree (Upload.dispatch w (SideBySide.canonical e))
                   (UploadLegacy.dispatch w' e).
Proof.
  intros A T. pose proof A as (A1 & A2 & A3).
  assert (En : Upload.enabled w (SideBySide.canonical e)
               = UploadLegacy.enabled w' e).
  { destruct e; simpl; unfold Upload.form_view, UploadLegacy.form_view,
      Upload.submit_disabled, UploadLegacy.submit_disabled;
      rewrite <- ?A1, <- ?A3; simpl; try reflexivity.
    now rewrite (Forall2_length A2). }
  unfold Upload.dispatch, UploadLegacy.dispatch. rewrite En.
  destruct (UploadLegacy.enabled w' e); [|exact A].
  destruct e as [f|t|files| | | |i o|i]; simpl; rewrite <- ?A1.
  - now apply agree_handleFileSelect.
  - apply agree_started; try assumption; [|constructor].
    destruct t; reflexivity.
  - unfold Upload.handleDrop, UploadLegacy.handleDrop.
    destruct files as [|f files].
    + apply agree_started; try assumption; [reflexivity|constructor].
    + apply (agree_handleFileSelect w w' (Some f)
               (Upload.setDragActive false (Upload.ui w)) A).
  - unfold Upload.handleSubmit, UploadLegacy.handleSubmit. simpl.
    destruct (Upload.file (Upload.ui w)) as [f|];
      apply agree_started; try assumption; try reflexivity;
      repeat constructor.
    simpl. now rewrite string_app_assoc.
  - apply agree_started; try assumption; [reflexivity|constructor].
  - apply agree_started; try assumption; [reflexivity|constructor].
  - repeat split; simpl.
    + now apply shared_settled.
    + now apply agree_remove_nth.
    + assumption.
  - rewrite <- A3. destruct (nth_error (Upload.reads w) i); [|exact A].
    repeat split; simpl; assumption.
Qed.

End Duplicate.

Lemma frames_test_on_object `{Engine} (members : list (string * value)) :
  match own members "gradcam_frames" with
  | None | Some VUndefined | Some VNull => True
  | Some (VArr _) => True
  | _ => False
  end ->
  exists b, Upload.has_frames (VObj members) = Normal b.
Proof.
  unfold Upload.has_frames. simpl.
  destruct (own members "gradcam_frames") as [[| |b|x|t|items|ms]|];
    simpl; intros C; try contradiction; try (now exists false).
  unfold gt_zero. simpl. eexists. reflexivity.
Qed.

(** C10, as the code has it.  On the cells they share the two components
    agree step by step: from agreeing worlds, any event takes both to
    agreeing worlds, provided that, when the event is a settled request,
    the evidence-frame test of the canonical handler does not throw on it.
    Agreement is equality of file, preview, loading flag, result, error
    and drag flag, the same pending reads, and pending requests equal
    except for the [?include_gradcam=true] suffix of the canonical URL.
    The test does not throw on a rejected request, on a non-success
    response, on a body that does not parse, nor on a parsed object whose
    [gradcam_frames] is absent, [null] or an array. *)
Theorem duplicate_agrees `{Engine} :
  SideBySide.agree Upload.start UploadLegacy.start /\
  (forall w w' e,
     SideBySide.agree w w' -> SideBySide.settles_alike e ->
     SideBySide.agree (Upload.dispatch w (SideBySide.canonical e))
                      (UploadLegacy.dispatch w' e)) /\
  (forall es,
     Forall SideBySide.settles_alike es ->
     SideBySide.agree (Upload.run Upload.start (map SideBySide.canonical es))
                      (UploadLegacy.run UploadLegacy.start es)) /\
  (forall s f,
     SideBySide.shared (fst (Upload.handleFileSelect f s))
     = fst (UploadLegacy.handleFileSelect f (SideBySide.shared s)) /\
     snd (Upload.handleFileSelect f s)
     = snd (UploadLegacy.handleFileSelect f (SideBySide.shared s))) /\
  (forall s,
     SideBySide.shared (fst (Upload.handleSubmit s))
     = fst (UploadLegacy.handleSubmit (SideBySide.shared s)) /\
     (forall q, snd (Upload.handleSubmit s) = [StartFetch q] ->
        exists q', snd (UploadLegacy.handleSubmit (SideBySide.shared s))
                   = [StartFetch q'] /\ SideBySide.same_but_flag q q')) /\
  (forall s o,
     SideBySide.frames_test_throws o = false ->
     SideBySide.shared (snd (Upload.handleSubmit_settled o s))
     = snd (UploadLegacy.handleSubmit_settled o (SideBySide.shared s))) /\
  (forall o,
     match o with
     | Rejected _ => True
     | Responded r =>
         ok r = false \/ (exists e, json r = Throw e) \/
         (exists members, json r = Normal (VObj members) /\
            match own members "gradcam_frames" with
            | None | Some VNull | Some (VArr _) => True
            | _ => False
            end)
     end ->
     SideBySide.frames_test_throws o = false).
Proof.
  split; [|split; [|split; [|split; [|split; [|split]]]]].
  - repeat split; constructor.
  - intros w w' e. apply agree_dispatch.
  - intros es F.
    assert (G : forall w w', SideBySide.agree w w' ->
              SideBySide.agree (Upload.run w (map SideBySide.canonical es))
                               (UploadLegacy.run w' es)).
    { induction F as [|e es T F IH]; intros w w' A; simpl.
      - exact A.
      - apply IH. now apply agree_dispatch. }
    apply G. repeat split; constructor.
  - intros s f. unfold Upload.handleFileSelect, UploadLegacy.handleFileSelect.
    destruct f as [f|]; [destruct (prefix "video/" (type f))|];
      split; reflexivity.
  - intros s. unfold Upload.handleSubmit, UploadLegacy.handleSubmit. simpl.
    destruct (Upload.file s) as [f|]; split; try reflexivity.
    + intros q Q. injection Q as <-. eexists. split; [reflexivity|].
      repeat split. simpl. now rewrite string_app_assoc.
    + discriminate.
  - intros s o. apply shared_settled.
  - intros [r|e]; [|reflexivity]. simpl.
    intros [K|[[e J]|[members [J C]]]].
    + now rewrite K.
    + rewrite J. apply andb_false_r.
    + rewrite J.
      destruct (frames_test_on_object members) as [b B].
      * destruct (own members "gradcam_frames") as [[| |?|?|?|?|?]|];
          try contradiction; exact I.
      * rewrite B. apply andb_false_r.
Qed.

Lemma duplicate_agrees_witness :
  let es := [UploadLegacy.Pick (Some Samples.clip); UploadLegacy.Submit;
             UploadLegacy.FetchSettled 0 Samples.verdict_arrives] in
  Forall (@SideBySide.settles_alike Samples.chrome) es /\
  SideBySide.agree
    (@Upload.run Samples.chrome Upload.start (map SideBySide.canonical es))
    (@UploadLegacy.run Samples.chrome UploadLegacy.start es).
Proof.
  cbv zeta.
  assert (F : Forall (@SideBySide.settles_alike Samples.chrome)
                [UploadLegacy.Pick (Some Samples.clip); UploadLegacy.Submit;
                 UploadLegacy.FetchSettled 0 Samples.verdict_arrives])
    by (repeat constructor).
  split; [exact F|].
  destruct (@duplicate_agrees Samples.chrome) as (_ & _ & R & _).
  exact (R _ F).
Defined.

(** C10 as stated fails on a successful response whose JSON body is
    [null], which has no evidence frames: the canonical handler throws on
    [data.gradcam_frames] and shows the [TypeError], the duplicate shows
    no error. *)
Lemma null_body_tells_them_apart :
  let w := @Upload.run Samples.chrome Upload.start
             [Upload.Pick (Some Samples.clip); Upload.Submit;
              Upload.FetchSettled 0 Samples.null_body] in
  let w' := @UploadLegacy.run Samples.chrome UploadLegacy.start
              [UploadLegacy.Pick (Some Samples.clip); UploadLegacy.Submit;
               UploadLegacy.FetchSettled 0 Samples.null_body] in
  Upload.result (Upload.ui w) = VNull /\
  UploadLegacy.result (UploadLegacy.ui w') = VNull /\
  Upload.error (Upload.ui w)
  = Some "Cannot read properties of null (reading 'gradcam_frames')" /\
  UploadLegacy.error (UploadLegacy.ui w') = None /\
  SideBySide.shared (Upload.ui w) <> UploadLegacy.ui w'.
Proof.
  cbv zeta. repeat split; try reflexivity. discriminate.
Qed.

(** ** The confidence percentage *)

Lemma digits2_size (p : positive) : digits2_pos p = Pos.size p.
Proof. induction p; simpl; congruence. Qed.

Lemma digits2_bounds (p : positive) :
  (2 ^ (Zpos (digits2_pos p) - 1) <= Zpos p < 2 ^ Zpos (digits2_pos p))%Z.
Proof.
  rewrite digits2_size. split.
  - pose proof (Pos.size_le p) as L.
    assert (E : (2 ^ Zpos (Pos.size p) = 2 * 2 ^ (Zpos (Pos.size p) - 1))%Z).
    { rewrite <- Z.pow_succ_r by lia. f_equal. lia. }
    assert (Zpos (2 ^ Pos.size p) <= Zpos p~0)%Z by exact L.
    rewrite Pos2Z.inj_pow in H. lia.
  - pose proof (Pos.size_gt p) as G.
    assert (Zpos p < Zpos (2 ^ Pos.size p))%Z by exact G.
    now rewrite Pos2Z.inj_pow in H.
Qed.

Lemma Zdigits2_le (m n : Z) :
  (0 <= m < 2 ^ n)%Z -> (0 <= n)%Z -> (Zdigits2 m <= n)%Z.
Proof.
  intros [L U] N. destruct m as [|p|p]; simpl; try lia.
  destruct (Z_le_gt_dec (Zpos (digits2_pos p)) n) as [|G]; [assumption|].
  pose proof (digits2_bounds p) as [B _].
  assert (2 ^ n <= 2 ^ (Zpos (digits2_pos p) - 1))%Z
    by (apply Z.pow_le_mono_r; lia).
  lia.
Qed.

Lemma shr_1_bound (mrs : shr_record) :
  (0 <= shr_m mrs)%Z ->
  (0 <= shr_m (shr_1 mrs) /\ 2 * shr_m (shr_1 mrs) <= shr_m mrs)%Z.
Proof.
  destruct mrs as [m r s]. simpl.
  destruct m as [|[p|p|]|p]; simpl; lia.
Qed.

Lemma iter_shr_1_bound (p : positive) (mrs : shr_record) :
  (0 <= shr_m mrs)%Z ->
  (0 <= shr_m (iter_pos shr_1 p mrs) /\
   2 ^ Zpos p * shr_m (iter_pos shr_1 p mrs) <= shr_m mrs)%Z.
Proof.
  revert mrs. induction p as [p IH|p IH|]; intros mrs N; simpl iter_pos.
  - destruct (shr_1_bound mrs N) as [N1 B1].
    destruct (IH _ N1) as [N2 B2]. destruct (IH _ N2) as [N3 B3].
    split; [assumption|].
    replace (Zpos p~1) with (Zpos p + Zpos p + 1)%Z by lia.
    rewrite !Z.pow_add_r by lia.
    assert (0 < 2 ^ Zpos p)%Z by (apply Z.pow_pos_nonneg; lia).
    nia.
  - destruct (IH _ N) as [N2 B2]. destruct (IH _ N2) as [N3 B3].
    split; [assumption|].
    replace (Zpos p~0) with (Zpos p + Zpos p)%Z by lia.
    rewrite !Z.pow_add_r by lia.
    assert (0 < 2 ^ Zpos p)%Z by (apply Z.pow_pos_nonneg; lia).
    nia.
  - destruct (shr_1_bound mrs N) as [N1 B1]. split; [assumption|].
    change (2 ^ 1)%Z with 2%Z. lia.
Qed.

Lemma shr_bound (m : Z) (l : location) (e n : Z) :
  (0 <= m)%Z ->
  let '(mrs, e') := shr (shr_record_of_loc m l) e n in
  (0 <= shr_m mrs /\ e' = e + Z.max n 0 /\
   2 ^ Z.max n 0 * shr_m mrs <= m)%Z.
Proof.
  intros N.
  assert (S : shr_m (shr_record_of_loc m l) = m)
    by (destruct l as [|[| |]]; reflexivity).
  destruct n as [|p|p]; unfold shr.
  - rewrite S. change (Z.max 0 0) with 0%Z. change (2 ^ 0)%Z with 1%Z.
    repeat split; lia.
  - destruct (iter_shr_1_bound p (shr_record_of_loc m l)) as [N1 B1];
      [now rewrite S|].
    rewrite S in B1. change (Z.max (Zpos p) 0) with (Zpos p).
    repeat split; assumption.
  - rewrite S. change (Z.max (Zneg p) 0) with 0%Z. change (2 ^ 0)%Z with 1%Z.
    repeat split; lia.
Qed.

Lemma round_nearest_even_bound (m : Z) (l : location) :
  (m <= round_nearest_even m l <= m + 1)%Z.
Proof.
  destruct l as [|[| |]]; simpl; try lia. destruct (Z.even m); lia.
Qed.

Lemma pow2_pos (z : Z) : (0 <= z -> 0 < 2 ^ z)%Z.
Proof. intros. apply Z.pow_pos_nonneg; lia. Qed.

Lemma pow2_split (a b : Z) :
  (0 <= a -> 0 <= b -> 2 ^ (a + b) = 2 ^ a * 2 ^ b)%Z.
Proof. intros. now apply Z.pow_add_r. Qed.

Lemma binary_round_aux_bound (mx : positive) (ex : Z) :
  (ex <= -46)%Z -> (Zpos mx <= 100 * 2 ^ (- ex))%Z ->
  binary_round_aux prec emax false (Zpos mx) ex loc_Exact = S754_zero false \/
  exists m e,
    binary_round_aux prec emax false (Zpos mx) ex loc_Exact
    = S754_finite false m e /\
    (e <= -46)%Z /\ (Zpos m <= 100 * 2 ^ (- e) + 1)%Z.
Proof.
  intros Hex Hval.
  assert (D : forall m e, (0 <= m <= 100 * 2 ^ (- e) + 1)%Z -> (e <= -46)%Z ->
              (fexp prec emax (Zdigits2 m + e) <= -46)%Z).
  { intros m e [M0 M1] E.
    assert (Zdigits2 m <= 7 - e)%Z.
    { apply Zdigits2_le; [|lia]. split; [assumption|].
      replace (7 - e)%Z with (7 + - e)%Z by lia.
      rewrite pow2_split by lia. change (2 ^ 7)%Z with 128%Z.
      assert (2 ^ 46 <= 2 ^ (- e))%Z by (apply Z.pow_le_mono_r; lia).
      assert (0 < 2 ^ 46)%Z by reflexivity. lia. }
    unfold fexp, emin, prec, emax. lia. }
  unfold binary_round_aux, shr_fexp.
  set (k := (fexp prec emax (Zdigits2 (Zpos mx) + ex) - ex)%Z).
  pose proof (shr_bound (Zpos mx) loc_Exact ex k ltac:(lia)) as S1.
  destruct (shr (shr_record_of_loc (Zpos mx) loc_Exact) ex k) as [mrs' e'].
  destruct S1 as (N1 & E1 & B1).
  assert (K : (fexp prec emax (Zdigits2 (Zpos mx) + ex) <= -46)%Z)
    by (apply D; lia).
  assert (E1' : (e' <= -46)%Z) by lia.
  assert (P1 : (0 < 2 ^ Z.max k 0)%Z) by (apply pow2_pos; lia).
  assert (Q1 : (0 < 2 ^ (- e'))%Z) by (apply pow2_pos; lia).
  assert (V1 : (shr_m mrs' <= 100 * 2 ^ (- e'))%Z).
  { assert (X : (2 ^ (- ex) = 2 ^ Z.max k 0 * 2 ^ (- e'))%Z).
    { rewrite <- pow2_split by lia. f_equal. lia. }
    rewrite X in Hval. nia. }
  pose proof (round_nearest_even_bound (shr_m mrs') (loc_of_shr_record mrs')) as R.
  set (m2 := round_nearest_even (shr_m mrs') (loc_of_shr_record mrs')) in *.
  set (k2 := (fexp prec emax (Zdigits2 m2 + e') - e')%Z).
  pose proof (shr_bound m2 loc_Exact e' k2 ltac:(lia)) as S2.
  destruct (shr (shr_record_of_loc m2 loc_Exact) e' k2) as [mrs'' e''].
  destruct S2 as (N2 & E2 & B2).
  assert (K2 : (fexp prec emax (Zdigits2 m2 + e') <= -46)%Z)
    by (apply D; lia).
  assert (E2' : (e'' <= -46)%Z) by lia.
  assert (P2 : (0 < 2 ^ Z.max k2 0)%Z) by (apply pow2_pos; lia).
  assert (Q2 : (0 < 2 ^ (- e''))%Z) by (apply pow2_pos; lia).
  assert (V2 : (shr_m mrs'' <= 100 * 2 ^ (- e'') + 1)%Z).
  { assert (X : (2 ^ (- e') = 2 ^ Z.max k2 0 * 2 ^ (- e''))%Z).
    { rewrite <- pow2_split by lia. f_equal. lia. }
    rewrite X in V1. nia. }
  destruct (shr_m mrs'') as [|m|m].
  - now left.
  - right. exists m, e''.
    assert (L : (e'' <=? emax - prec)%Z = true)
      by (apply Z.leb_le; unfold emax, prec; lia).
    rewrite L. repeat split; assumption.
  - lia.
Qed.

Lemma ofZ_100 : ofZ 100 = S754_finite false 7036874417766400 (-46).
Proof. reflexivity. Qed.

Lemma ofZ_1 : ofZ 1 = S754_finite false 4503599627370496 (-52).
Proof. reflexivity. Qed.

Lemma unit_interval (c : Number) :
  valid_binary prec emax c = true ->
  leN (S754_zero false) c = true -> leN c (ofZ 1) = true ->
  (exists s, c = S754_zero s) \/
  exists m e, c = S754_finite false m e /\ (e <= -52)%Z /\
              (Zpos m <= 2 ^ (- e))%Z.
Proof.
  intros V L U. rewrite ofZ_1 in U. unfold leN, SFleb, SFcompare in L, U.
  destruct c as [s|s| |s m e].
  - left. now exists s.
  - destruct s; discriminate.
  - discriminate.
  - right. destruct s; [discriminate|]. exists m, e. split; [reflexivity|].
    unfold valid_binary, bounded, canonical_mantissa in V.
    apply andb_true_iff in V. destruct V as [V _]. apply Z.eqb_eq in V.
    unfold fexp, emin, prec, emax in V.
    pose proof (digits2_bounds m) as [_ M].
    destruct (Z.compare_spec e (-52)) as [E|E|E].
    + subst e. split; [lia|].
      rewrite Pos.compare_cont_spec in U.
      assert (P : (2 ^ (- -52) = 4503599627370496)%Z) by reflexivity.
      rewrite P. clear P V M.
      destruct (Pos.compare_spec m 4503599627370496) as [C|C|C].
      * subst m. reflexivity.
      * apply Pos2Z.pos_lt_pos in C. apply Z.lt_le_incl. exact C.
      * discriminate U.
    + split; [lia|].
      assert (2 ^ Zpos (digits2_pos m) <= 2 ^ (- e))%Z
        by (apply Z.pow_le_mono_r; lia).
      lia.
    + discriminate U.
Qed.

Lemma mul_hundred (c : Number) :
  valid_binary prec emax c = true ->
  leN (S754_zero false) c = true -> leN c (ofZ 1) = true ->
  (exists s, mulN c (ofZ 100) = S754_zero s) \/
  exists m e, mulN c (ofZ 100) = S754_finite false m e /\ (e <= -46)%Z /\
              (Zpos m <= 100 * 2 ^ (- e) + 1)%Z.
Proof.
  intros V L U.
  destruct (unit_interval c V L U) as [[s ->]|(m & e & -> & E & M)].
  - left. exists s. rewrite ofZ_100. simpl. now destruct s.
  - rewrite ofZ_100. unfold mulN, SFmul. simpl xorb.
    destruct (binary_round_aux_bound (m * 7036874417766400) (e + -46))
      as [Z|(m' & e' & R & E' & M')].
    + lia.
    + rewrite Pos2Z.inj_mul.
      replace (- (e + -46))%Z with (- e + 46)%Z by lia.
      rewrite pow2_split by lia.
      change (2 ^ 46)%Z with 70368744177664%Z. lia.
    + left. exists false. exact Z.
    + right. exists m', e'. auto.
Qed.

Lemma nearest_scaled_spec (m : positive) (e : Z) :
  Fixed.nearest_multiple 1 (S754_finite false m e) (Fixed.nearest_scaled 1 m e).
Proof.
  unfold Fixed.nearest_multiple, Fixed.nearest_scaled.
  destruct (0 <=? e)%Z eqn:E; [reflexivity|].
  apply Z.leb_gt in E.
  set (S := (Zpos m * 10 ^ Z.of_nat 1)%Z).
  assert (D : (0 < 2 ^ (- e))%Z) by (apply pow2_pos; lia).
  replace (1 - e)%Z with (1 + - e)%Z by lia.
  rewrite pow2_split by lia. change (2 ^ 1)%Z with 2%Z.
  set (d := (2 ^ (- e))%Z) in *.
  pose proof (Z.mul_div_le (2 * S + d) (2 * d) ltac:(lia)).
  pose proof (Z.mul_succ_div_gt (2 * S + d) (2 * d) ltac:(lia)).
  lia.
Qed.

Lemma nearest_scaled_bound (m : positive) (e : Z) :
  (e <= -46)%Z -> (Zpos m <= 100 * 2 ^ (- e) + 1)%Z ->
  (0 <= Fixed.nearest_scaled 1 m e <= 1000)%Z /\ Fixed.at_least_1e21 m e = false.
Proof.
  intros E M. unfold Fixed.nearest_scaled, Fixed.at_least_1e21.
  destruct (0 <=? e)%Z eqn:E0; [apply Z.leb_le in E0; lia|].
  assert (D : (2 ^ 46 <= 2 ^ (- e))%Z) by (apply Z.pow_le_mono_r; lia).
  change (2 ^ 46)%Z with 70368744177664%Z in D.
  replace (1 - e)%Z with (1 + - e)%Z by lia.
  rewrite pow2_split by lia. change (2 ^ 1)%Z with 2%Z.
  change (10 ^ Z.of_nat 1)%Z with 10%Z. change (10 ^ 21)%Z with 1000000000000000000000%Z.
  set (d := (2 ^ (- e))%Z) in *.
  repeat split.
  - apply Z.div_pos; lia.
  - apply Z.lt_succ_r. apply Z.div_lt_upper_bound; lia.
  - apply Z.leb_gt. lia.
Qed.

Lemma place_point_tenths (n : Z) :
  (0 <= n <= 1000)%Z ->
  Fixed.place_point 1 n = Fixed.decimal (n / 10) ++ "." ++ Fixed.decimal (n mod 10).
Proof.
  intros B.
  assert (A : forallb
                (fun k => let n := Z.of_nat k in
                   (Fixed.place_point 1 n
                    =? Fixed.decimal (n / 10) ++ "." ++ Fixed.decimal (n mod 10))%string)
                (seq 0 1001) = true) by (vm_compute; reflexivity).
  rewrite forallb_forall in A.
  specialize (A (Z.to_nat n)). rewrite Z2Nat.id in A by lia.
  apply String.eqb_eq, A, in_seq. lia.
Qed.

(** C6.  For every binary64 confidence between 0 and 1 the text shown is
    an integer part, a point, exactly one fraction digit and the percent
    sign: the digits are those of the integer [n], between 0 and 1000,
    for which [n/10] is the tenth nearest to the product
    [confidence * 100] as computed in binary64 (the upper tenth on a
    tie).  The confidence 0.9847 is shown as [98.5%] and 0.972 as
    [97.2%]. *)
Theorem confidence_text_one_decimal `{Engine} :
  (forall c : Number,
     valid_binary prec emax c = true ->
     leN (S754_zero false) c = true -> leN c (ofZ 1) = true ->
     exists n : Z,
       (0 <= n <= 1000)%Z /\
       Fixed.nearest_multiple 1 (mulN c (ofZ 100)) n /\
       Upload.confidence_text c
       = Fixed.decimal (n / 10) ++ "." ++ Fixed.decimal (n mod 10) ++ "%") /\
  Upload.confidence_text Samples.n0_9847 = "98.5%" /\
  Upload.confidence_text Samples.n0_972 = "97.2%".
Proof.
  split; [|split; vm_compute; reflexivity].
  intros c V L U. unfold Upload.confidence_text.
  destruct (mul_hundred c V L U) as [[s ->]|(m & e & -> & E & M)].
  - exists 0%Z. split; [lia|]. split; [reflexivity|].
    unfold Fixed.toFixed. rewrite (place_point_tenths 0) by lia.
    now rewrite !string_app_assoc.
  - destruct (nearest_scaled_bound m e E M) as [B A].
    exists (Fixed.nearest_scaled 1 m e). split; [exact B|].
    split; [apply nearest_scaled_spec|].
    unfold Fixed.toFixed. rewrite A, (place_point_tenths _ B).
    simpl. now rewrite !string_app_assoc.
Qed.

Lemma confidence_text_one_decimal_witness :
  valid_binary prec emax Samples.n0_9847 = true /\
  exists n : Z,
    (0 <= n <= 1000)%Z /\
    Fixed.nearest_multiple 1 (mulN Samples.n0_9847 (ofZ 100)) n /\
    @Upload.confidence_text Samples.chrome Samples.n0_9847
    = Fixed.decimal (n / 10) ++ "." ++ Fixed.decimal (n mod 10) ++ "%".
Proof.
  split; [vm_compute; reflexivity|].
  apply (proj1 (@confidence_text_one_decimal Samples.chrome));
    vm_compute; reflexivity.
Defined.

(* ===================================================================== *)
(** * Further properties of the upload page                               *)
(* ===================================================================== *)

(** ** What settling writes, for every outcome *)

Section SettledWrites.
Context `{Engine}.

(** Settling is a sequence of setter calls fixed by the outcome. *)
Lemma settled_written (o : FetchOutcome) :
  exists res reset err,
    forall s, snd (Upload.handleSubmit_settled o s)
              = UploadView.written res reset err s.
Proof.
  assert (X : forall m,
             (forall s, snd (Upload.handleSubmit_settled o s)
                        = Upload.setLoading false (Upload.setError (Some m) s)) ->
             exists res reset err,
               forall s, snd (Upload.handleSubmit_settled o s)
                         = UploadView.written res reset err s)
    by (intros m E; exists None, false, (Some m); exact E).
  destruct o as [r|e]; [|apply (X (shown_message e)); reflexivity].
  destruct (json r) as [data|e] eqn:J;
    [|apply (X (shown_message e)); intros s; apply (settled_unparseable r e s J)].
  destruct (ok r) eqn:K.
  - destruct (Upload.has_frames data) as [[|]|e] eqn:F;
      [exists (Some data), true, None
      |exists (Some data), false, None
      |exists (Some data), false, (Some (shown_message e))];
      intros s; rewrite (settled_ok r data s K J), F; reflexivity.
  - destruct (Get data "detail") as [detail|e] eqn:G;
      [|apply (X (shown_message e)); intros s;
        apply (settled_error_thrown r data e s K J G)].
    destruct (new_Error (if ToBoolean detail then detail
                         else VStr "Analysis failed")) as [e|e] eqn:N;
      apply (X (shown_message e)); intros s;
      unfold Upload.handleSubmit_settled, try_catch_finally, bind, eval, throw;
      simpl; rewrite K; simpl; rewrite J, G, N; reflexivity.
Qed.

(** X1.  A settled request always ends loading and writes nothing but result,
    selected index and error, and what it writes depends on the outcome
    alone, not on the state.  It writes a result or an error, never
    neither; it puts the selected index back to 0 only together with a
    result and without an error; any failure before the body is parsed
    leaves the result alone. *)
Theorem settled_writes (o : FetchOutcome) :
  exists res reset err,
    (forall s, snd (Upload.handleSubmit_settled o s)
               = UploadView.written res reset err s) /\
    (res = None -> err <> None) /\
    (reset = true -> res <> None /\ err = None) /\
    (res <> None ->
     exists r, o = Responded r /\ ok r = true /\
               match res with Some d => json r = Normal d | None => False end).
Proof.
  destruct o as [r|e].
  2: { exists None, false, (Some (shown_message e)).
       repeat split; try reflexivity; try discriminate.
       intros C. now contradiction C. }
  destruct (json r) as [data|e] eqn:J.
  2: { exists None, false, (Some (shown_message e)). repeat split.
       - intros s. now rewrite (settled_unparseable r e s J).
       - discriminate.
       - discriminate.
       - discriminate.
       - intros C. now contradiction C. }
  destruct (ok r) eqn:K.
  - destruct (Upload.has_frames data) as [[|]|e] eqn:F.
    + exists (Some data), true, None. repeat split; try discriminate.
      * intros s. rewrite (settled_ok r data s K J), F. reflexivity.
      * intros _. exists r. auto.
    + exists (Some data), false, None. repeat split; try discriminate.
      * intros s. rewrite (settled_ok r data s K J), F. reflexivity.
      * intros _. exists r. auto.
    + exists (Some data), false, (Some (shown_message e)).
      repeat split; try discriminate.
      * intros s. rewrite (settled_ok r data s K J), F. reflexivity.
      * intros _. exists r. auto.
  - destruct (Get data "detail") as [detail|e] eqn:G.
    + destruct (new_Error (if ToBoolean detail then detail
                           else VStr "Analysis failed")) as [e|e] eqn:N;
        exists None, false, (Some (shown_message e));
        (repeat split; try discriminate;
         [ intros s;
           unfold Upload.handleSubmit_settled, try_catch_finally, bind,
             eval, throw; simpl; rewrite K; simpl; rewrite J, G, N;
           reflexivity
         | intros C; now contradiction C ]).
    + exists None, false, (Some (shown_message e)). repeat split.
      * intros s. now rewrite (settled_error_thrown r data e s K J G).
      * discriminate.
      * discriminate.
      * discriminate.
      * intros C. now contradiction C.
Qed.

End SettledWrites.

(** A request that fails on the network leaves the result alone, writes
    its message and ends loading. *)
Lemma settled_writes_witness :
  let s := Upload.setLoading true (Upload.setFile (Some Samples.clip)
                                                  Upload.initial) in
  let s' := snd (@Upload.handleSubmit_settled Samples.chrome
                   (Rejected (mkError "Failed to fetch")) s) in
  Upload.result s' = Upload.result s /\ Upload.error s' <> None /\
  Upload.loading s' = false.
Proof.
  cbv zeta.
  destruct (@settled_writes Samples.chrome (Rejected (mkError "Failed to fetch")))
    as (res & reset & err & W & E & _ & P).
  rewrite W. destruct res as [d|].
  - destruct P as (r & C & _); discriminate.
  - specialize (E eq_refl). destruct err as [m|]; [|now contradiction E].
    destruct reset; (split; [reflexivity|split; [discriminate|reflexivity]]).
Defined.

(** ** The cells that are only shown *)

(** X2.  The preview and the drag flag never influence the workflow: two
    worlds that differ at most in these two cells are taken by any event
    to two worlds that again differ at most in them.  File, loading flag,
    result, error, selected index, pending requests and pending reads
    evolve the same. *)
Theorem preview_and_drag_do_not_interfere `{Engine}
    (w1 w2 : Upload.World) (e : Upload.Event) :
  UploadView.workflow_cells w1 = UploadView.workflow_cells w2 ->
  UploadView.workflow_cells (Upload.dispatch w1 e)
  = UploadView.workflow_cells (Upload.dispatch w2 e).
Proof.
  destruct w1 as [[f1 p1 l1 r1 e1 d1 v1] fs1 rs1].
  destruct w2 as [[f2 p2 l2 r2 e2 d2 v2] fs2 rs2].
  unfold UploadView.workflow_cells. simpl. intros E.
  injection E as -> -> -> -> -> -> ->.
  unfold Upload.dispatch.
  assert (En : Upload.enabled
                 (Upload.mkWorld (Upload.mkState f2 p1 l2 r2 e2 d1 v2) fs2 rs2) e
               = Upload.enabled
                 (Upload.mkWorld (Upload.mkState f2 p2 l2 r2 e2 d2 v2) fs2 rs2) e)
    by (destruct e; reflexivity).
  rewrite En. destruct (Upload.enabled _ e); [|reflexivity].
  destruct e as [f|t|files| | | |idx|i o|i]; simpl.
  - unfold Upload.handleFileSelect.
    destruct f as [f|]; [destruct (prefix "video/" (type f))|]; reflexivity.
  - destruct t; reflexivity.
  - unfold Upload.handleDrop, Upload.handleFileSelect.
    destruct files as [|f files]; [reflexivity|].
    destruct (prefix "video/" (type f)); reflexivity.
  - unfold Upload.handleSubmit. simpl. destruct f2; reflexivity.
  - reflexivity.
  - reflexivity.
  - reflexivity.
  - destruct (settled_written o) as (res & reset & err & W).
    rewrite !W. unfold UploadView.written.
    destruct res, reset, err; reflexivity.
  - destruct (nth_error rs2 i); reflexivity.
Qed.

Lemma preview_and_drag_do_not_interfere_witness :
  let w1 := @Upload.run Samples.chrome Upload.start
              [Upload.Pick (Some Samples.clip); Upload.Drag dragenter] in
  let w2 := @Upload.run Samples.chrome Upload.start
              [Upload.Pick (Some Samples.clip); Upload.ReaderLoaded 0;
               Upload.Pick (Some Samples.clip); Upload.ReaderLoaded 0;
               Upload.Pick (Some Samples.clip)] in
  Upload.ui w1 <> Upload.ui w2 /\
  UploadView.workflow_cells
    (@Upload.dispatch Samples.chrome w1 Upload.Submit)
  = UploadView.workflow_cells
      (@Upload.dispatch Samples.chrome w2 Upload.Submit).
Proof.
  cbv zeta. split; [discriminate|].
  apply (@preview_and_drag_do_not_interfere Samples.chrome). reflexivity.
Defined.

(** ** A result on display *)

(** X3.  While a result is on display nothing is pending and nothing but
    "Analyze Another" can take it away: in a reachable world with a
    result no request is in flight, and every other event leaves the
    file, the loading flag, the result and the error as they are. *)
Theorem displayed_result_is_stable `{Engine}
    (w : Upload.World) (e : Upload.Event) :
  Upload.reachable w ->
  ToBoolean (Upload.result (Upload.ui w)) = true ->
  Upload.fetches w = [] /\ Upload.loading (Upload.ui w) = false /\
  (e <> Upload.AnalyzeAnother ->
   let s' := Upload.ui (Upload.dispatch w e) in
   Upload.result s' = Upload.result (Upload.ui w) /\
   Upload.file s' = Upload.file (Upload.ui w) /\
   Upload.loading s' = Upload.loading (Upload.ui w) /\
   Upload.error s' = Upload.error (Upload.ui w)).
Proof.
  intros R T. pose proof (reachable_invariant w R) as [I1 I2 I3 I4].
  assert (L : Upload.loading (Upload.ui w) = false).
  { destruct (Upload.loading (Upload.ui w)); [|reflexivity].
    rewrite I2 in T by reflexivity. discriminate. }
  rewrite L in I1.
  assert (F : Upload.fetches w = [])
    by (destruct (Upload.fetches w); [reflexivity|discriminate]).
  split; [exact F|]. split; [exact L|].
  intros N s'. subst s'. unfold Upload.dispatch.
  destruct (Upload.enabled w e) eqn:En; [|repeat split; reflexivity].
  destruct e as [f|t|files| | | |idx|i o|i]; simpl in En;
    unfold Upload.form_view in En; rewrite ?T in En; simpl in En;
    try discriminate.
  - now contradiction N.
  - repeat split; reflexivity.
  - rewrite F in En. discriminate.
  - simpl. destruct (nth_error (Upload.reads w) i); repeat split; reflexivity.
Qed.

Lemma displayed_result_is_stable_witness :
  let w := @Upload.run Samples.chrome Upload.start
             [Upload.Pick (Some Samples.clip); Upload.Submit;
              Upload.FetchSettled 0 Samples.frames_arrive] in
  Upload.fetches w = [] /\
  Upload.result
    (Upload.ui (@Upload.dispatch Samples.chrome w
                  (Upload.Pick (Some Samples.other_clip))))
  = Samples.framed_verdict.
Proof.
  cbv zeta.
  destruct (@displayed_result_is_stable Samples.chrome
              (@Upload.run Samples.chrome Upload.start
                 [Upload.Pick (Some Samples.clip); Upload.Submit;
                  Upload.FetchSettled 0 Samples.frames_arrive])
              (Upload.Pick (Some Samples.other_clip)))
    as (F & _ & S).
  - apply run_reachable. constructor.
  - reflexivity.
  - split; [exact F|]. apply S. discriminate.
Defined.

(** ** What is held, read and sent *)

Section OnlyVideos.
Context `{Engine}.

Lemma Forall_remove_nth {A} (P : A -> Prop) (i : nat) (l : list A) :
  Forall P l -> Forall P (remove_nth i l).
Proof.
  intros F. revert i. induction F as [|x l Px F IH]; intros i; simpl.
  - constructor.
  - destruct i as [|i]; [assumption|]. constructor; [assumption|apply IH].
Qed.

Lemma settled_file (o : FetchOutcome) (s : Upload.State) :
  Upload.file (snd (Upload.handleSubmit_settled o s)) = Upload.file s.
Proof.
  destruct (settled_written o) as (res & reset & err & W).
  rewrite W. unfold UploadView.written. destruct res, reset, err; reflexivity.
Qed.

Lemma handleFileSelect_only_videos (w : Upload.World) (f : option MediaFile) :
  UploadView.only_videos w ->
  UploadView.only_videos
    (Upload.started w (Upload.handleFileSelect f (Upload.ui w))).
Proof.
  intros [V S R]. unfold Upload.handleFileSelect.
  destruct f as [f|]; [destruct (prefix "video/" (type f)) eqn:P|];
    constructor; simpl; auto.
  - intros g G. injection G as <-. exact P.
  - apply Forall_app. split; [assumption|]. constructor; [exact P|constructor].
Qed.

Lemma dispatch_only_videos (w : Upload.World) (e : Upload.Event) :
  UploadView.only_videos w -> UploadView.only_videos (Upload.dispatch w e).
Proof.
  intros O. unfold Upload.dispatch.
  destruct (Upload.enabled w e); [|exact O].
  destruct e as [f|t|files| | | |idx|i o|i]; simpl.
  - now apply handleFileSelect_only_videos.
  - destruct O as [V S R]. destruct t; constructor; simpl; auto.
  - unfold Upload.handleDrop. destruct files as [|f files].
    + destruct O as [V S R]. constructor; simpl; auto.
    + apply (handleFileSelect_only_videos
               (Upload.mkWorld (Upload.setDragActive false (Upload.ui w))
                               (Upload.fetches w) (Upload.reads w))
               (Some f)).
      destruct O as [V S R]. constructor; simpl; auto.
  - destruct O as [V S R]. unfold Upload.handleSubmit.
    destruct (Upload.file (Upload.ui w)) as [f|] eqn:F;
      constructor; simpl; auto.
    + rewrite F. exact V.
    + apply Forall_app. split; [assumption|].
      constructor; [|constructor].
      repeat split. exists f. split; [reflexivity|]. now apply V.
    + rewrite F. exact V.
  - destruct O as [V S R]. constructor; simpl; auto. discriminate.
  - destruct O as [V S R]. constructor; simpl; auto. discriminate.
  - destruct O as [V S R]. constructor; simpl; auto.
  - destruct O as [V S R]. constructor; simpl; auto.
    + rewrite settled_file. exact V.
    + now apply Forall_remove_nth.
  - destruct (nth_error (Upload.reads w) i); [|exact O].
    destruct O as [V S R]. constructor; simpl; auto.
    now apply Forall_remove_nth.
Qed.

End OnlyVideos.

(** X4.  Nothing but an accepted video ever gets into the workflow: in every
    reachable world the file held, if any, has a type beginning with
    [video/]; every pending request is a POST to
    [API_URL/predict-video?include_gradcam=true] whose form has the single
    field [file] holding such a video; every pending read is of such a
    video.  The base URL is never empty. *)
Theorem only_accepted_videos_are_sent `{Engine} (w : Upload.World) :
  Upload.reachable w ->
  UploadView.only_videos w /\ API_URL <> EmptyString.
Proof.
  intros R. split.
  - induction R as [|w e R IH].
    + constructor; simpl; try constructor. discriminate.
    + now apply dispatch_only_videos.
  - unfold API_URL. destruct VITE_API_URL as [u|]; [|discriminate].
    destruct (u =? EmptyString) eqn:U; [discriminate|].
    now apply String.eqb_neq.
Qed.

Lemma only_accepted_videos_are_sent_witness :
  let w := @Upload.run Samples.chrome Upload.start
             [Upload.Pick (Some Samples.notes); Upload.Submit;
              Upload.Drop [Samples.clip; Samples.notes]; Upload.Submit] in
  Upload.fetches w
  = [mkRequest "http://localhost:8000/predict-video?include_gradcam=true"
               "POST" [("file", Samples.clip)]] /\
  @UploadView.only_videos Samples.chrome w.
Proof.
  cbv zeta. split; [reflexivity|].
  apply (@only_accepted_videos_are_sent Samples.chrome).
  apply run_reachable. constructor.
Defined.

(** ** The way back to the start *)

Section WayBack.
Context `{Engine}.

Lemma run_app (w : Upload.World) (es es' : list Upload.Event) :
  Upload.run w (es ++ es') = Upload.run (Upload.run w es) es'.
Proof. apply fold_left_app. Qed.

(** Letting every pending read finish empties the reads and touches the
    preview only. *)
Lemma reads_drain (rs : list MediaFile) (s : Upload.State)
    (fs : list Request) :
  exists p,
    Upload.run (Upload.mkWorld s fs rs)
               (repeat (Upload.ReaderLoaded 0) (List.length rs))
    = Upload.mkWorld (Upload.setPreview p s) fs [].
Proof.
  revert s. induction rs as [|f rs IH]; intros s.
  - exists (Upload.preview s). now destruct s.
  - destruct (IH (Upload.reader_onload f s)) as [p P].
    exists p.
    change (Upload.run (Upload.mkWorld s fs (f :: rs))
              (repeat (Upload.ReaderLoaded 0) (List.length (f :: rs))))
      with (Upload.run (Upload.mkWorld (Upload.reader_onload f s) fs rs)
              (repeat (Upload.ReaderLoaded 0) (List.length rs))).
    rewrite P. reflexivity.
Qed.

End WayBack.

(** X5.  The workflow has no dead end: from every reachable world the start
    can be reached again.  With any video at hand, letting the pending
    request (if any) fail, leaving the result card (if shown), picking
    the video, letting the reads finish, removing the file and ending the
    drag leads to the initial cells with nothing pending. *)
Theorem start_is_always_reachable `{Engine}
    (w : Upload.World) (f : MediaFile) (e : Error) :
  Upload.reachable w -> UploadView.is_video f ->
  Upload.run w (UploadView.way_back w f e) = Upload.start.
Proof.
  intros R V. pose proof (reachable_invariant w R) as [I1 I2 I3 I4].
  unfold UploadView.is_video in V.
  destruct w as [[fi p l r er d v] fs rs]. simpl in I1, I2, I3.
  unfold UploadView.way_back. simpl Upload.ui. simpl Upload.reads.
  simpl Upload.loading. simpl Upload.result.
  rewrite !run_app.
  assert (A : exists er' fi' p' d',
             Upload.run
               (Upload.run (Upload.mkWorld (Upload.mkState fi p l r er d v) fs rs)
                  (if l then [Upload.FetchSettled 0 (Rejected e)] else []))
               (if ToBoolean r then [Upload.AnalyzeAnother] else [])
             = Upload.mkWorld
                 (Upload.mkState fi' p' false
                    (if ToBoolean r then VNull else r) er' d' 0) [] rs).
  { destruct l.
    - specialize (I2 eq_refl). specialize (I3 I2). subst v. rewrite I2.
      destruct fs as [|q [|q' fs]]; try discriminate.
      exists (Some (shown_message e)), fi, p, d. reflexivity.
    - destruct fs as [|q fs]; [|discriminate].
      destruct (ToBoolean r) eqn:T.
      + exists None, None, None, d. simpl. unfold Upload.dispatch. simpl.
        unfold Upload.form_view. simpl. rewrite T. reflexivity.
      + specialize (I3 eq_refl). subst v. exists er, fi, p, d. reflexivity. }
  destruct A as (er' & fi' & p' & d' & ->).
  assert (F : ToBoolean (if ToBoolean r then VNull else r) = false)
    by (destruct (ToBoolean r) eqn:T; [reflexivity|exact T]).
  set (r0 := if ToBoolean r then VNull else r) in *.
  assert (P : Upload.run
                (Upload.mkWorld (Upload.mkState fi' p' false r0 er' d' 0) [] rs)
                [Upload.Pick (Some f)]
              = Upload.mkWorld
                  (Upload.mkState (Some f) p' false VNull None d' 0) []
                  (rs ++ [f])).
  { simpl. unfold Upload.dispatch. simpl. unfold Upload.form_view. simpl.
    rewrite F. simpl. unfold Upload.handleFileSelect. rewrite V. reflexivity. }
  rewrite P.
  replace (S (List.length rs)) with (List.length (rs ++ [f]))
    by (rewrite length_app; simpl; lia).
  destruct (reads_drain (rs ++ [f])
              (Upload.mkState (Some f) p' false VNull None d' 0) [])
    as [p'' ->].
  reflexivity.
Qed.

Lemma start_is_always_reachable_witness :
  let w := @Upload.run Samples.chrome Upload.start
             [Upload.Pick (Some Samples.clip); Upload.Drag dragenter;
              Upload.Submit; Upload.Pick (Some Samples.notes)] in
  Upload.ui w
  = Upload.mkState (Some Samples.clip) None true VNull
      (Some "Please select a valid video file") true 0 /\
  @Upload.run Samples.chrome w
    (UploadView.way_back w Samples.other_clip (mkError "Failed to fetch"))
  = Upload.start.
Proof.
  cbv zeta. split; [reflexivity|].
  apply (@start_is_always_reachable Samples.chrome).
  - apply run_reachable. constructor.
  - reflexivity.
Defined.

(** ** The frame on display *)

Lemma filter_eqb_seq_below (v a n : nat) :
  v < a -> filter (Nat.eqb v) (seq a n) = [].
Proof.
  revert a. induction n as [|n IH]; intros a B; [reflexivity|]. simpl.
  destruct (Nat.eqb_spec v a) as [->|N]; [lia|]. apply IH. lia.
Qed.

Lemma filter_eqb_seq (v a n : nat) :
  a <= v < a + n -> filter (Nat.eqb v) (seq a n) = [v].
Proof.
  revert a. induction n as [|n IH]; intros a B; [lia|]. simpl.
  destruct (Nat.eqb_spec v a) as [->|N].
  - f_equal. apply filter_eqb_seq_below. lia.
  - apply IH. lia.
Qed.

(** X6.  Whenever the result has evidence frames the main panel has a frame to
    show, one of them, and (with more than one frame) exactly one
    thumbnail is highlighted, the one of that frame.  A click on a
    thumbnail puts its frame on the main panel and changes nothing
    else. *)
Theorem one_frame_on_display `{Engine} (w : Upload.World) :
  Upload.reachable w ->
  Upload.evidenceFrames (Upload.ui w) <> [] ->
  (exists fr, UploadView.main_frame (Upload.ui w) = Some fr /\
              In fr (Upload.evidenceFrames (Upload.ui w))) /\
  (1 < List.length (Upload.evidenceFrames (Upload.ui w)) ->
   filter (fun idx => UploadView.highlighted idx (Upload.ui w))
          (UploadView.thumbnails (Upload.ui w))
   = [Upload.selectedVisualization (Upload.ui w)]) /\
  (forall idx,
     Upload.enabled w (Upload.SelectThumbnail idx) = true ->
     let w' := Upload.dispatch w (Upload.SelectThumbnail idx) in
     UploadView.main_frame (Upload.ui w')
     = nth_error (Upload.evidenceFrames (Upload.ui w)) idx /\
     UploadView.main_frame (Upload.ui w') <> None /\
     Upload.ui w' = Upload.setSelectedVisualization idx (Upload.ui w) /\
     Upload.fetches w' = Upload.fetches w /\ Upload.reads w' = Upload.reads w).
Proof.
  intros R N.
  pose proof (Upload.selection_in_range w (reachable_invariant w R) N) as B.
  split; [|split].
  - unfold UploadView.main_frame.
    destruct (nth_error (Upload.evidenceFrames (Upload.ui w))
                (Upload.selectedVisualization (Upload.ui w))) as [fr|] eqn:E.
    + exists fr. split; [reflexivity|]. eapply nth_error_In. exact E.
    + apply nth_error_None in E. lia.
  - intros M. unfold UploadView.thumbnails, UploadView.highlighted.
    apply Nat.ltb_lt in M. rewrite M. apply filter_eqb_seq. lia.
  - intros idx En w'. subst w'. unfold Upload.dispatch. rewrite En.
    simpl in En. apply andb_true_iff in En. destruct En as [_ T].
    unfold Upload.thumbnail_rendered in T. apply andb_true_iff in T.
    destruct T as [_ T]. apply Nat.ltb_lt in T.
    simpl. unfold UploadView.main_frame. simpl.
    repeat split. now apply nth_error_Some.
Qed.

Lemma one_frame_on_display_witness :
  let w := @Upload.run Samples.chrome Upload.start
             [Upload.Pick (Some Samples.clip); Upload.Submit;
              Upload.FetchSettled 0 Samples.frames_arrive;
              Upload.SelectThumbnail 1] in
  @UploadView.main_frame Samples.chrome (Upload.ui w)
  = Some (Samples.frame 40 Samples.n0_9847 true) /\
  filter (fun idx => UploadView.highlighted idx (Upload.ui w))
         (@UploadView.thumbnails Samples.chrome (Upload.ui w)) = [1].
Proof.
  cbv zeta. split; [reflexivity|].
  refine (proj1 (proj2 (@one_frame_on_display Samples.chrome
                          (@Upload.run Samples.chrome Upload.start
                             [Upload.Pick (Some Samples.clip); Upload.Submit;
                              Upload.FetchSettled 0 Samples.frames_arrive;
                              Upload.SelectThumbnail 1]) _ _)) _).
  - apply run_reachable. constructor.
  - discriminate.
  - simpl. lia.
Defined.

(** ** The duplicate, whatever the response *)

Section DuplicateAlike.
Context `{Engine}.

Lemma alike_started (w : Upload.World) (w' : UploadLegacy.World)
    (s : Upload.State) (s' : UploadLegacy.State) (effs effs' : list Effect) :
  UploadLegacyView.alike_worlds w w' ->
  UploadLegacyView.alike s s' ->
  Forall2 (fun a b =>
             match a, b with
             | StartRead f, StartRead f' => f = f'
             | StartFetch q, StartFetch q' => SideBySide.same_but_flag q q'
             | _, _ => False
             end) effs effs' ->
  UploadLegacyView.alike_worlds (Upload.started w (s, effs))
                                (UploadLegacy.started w' (s', effs')).
Proof.
  intros (A1 & A2 & A3) S F.
  unfold Upload.started, UploadLegacy.started. simpl.
  assert (G : UploadLegacyView.alike_worlds
                (Upload.mkWorld s (Upload.fetches w) (Upload.reads w))
                (UploadLegacy.mkWorld s' (UploadLegacy.fetches w')
                                      (UploadLegacy.reads w')))
    by (repeat split; try assumption; apply S).
  clear A1 A2 A3 S.
  revert G.
  generalize (Upload.mkWorld s (Upload.fetches w) (Upload.reads w)).
  generalize (UploadLegacy.mkWorld s' (UploadLegacy.fetches w')
                                   (UploadLegacy.reads w')).
  induction F as [|a b effs effs' AB F IH]; intros v' v G; simpl.
  - exact G.
  - apply IH. destruct G as (G1 & G2 & G3).
    destruct a as [f|q], b as [f'|q']; try contradiction; simpl.
    + subst f'. repeat split; try assumption; try apply G1. now rewrite G3.
    + repeat split; try assumption; try apply G1.
      apply Forall2_app; [assumption|]. constructor; [assumption|constructor].
Qed.

Lemma alike_handleFileSelect (w : Upload.World) (w' : UploadLegacy.World)
    (f : option MediaFile) (s : Upload.State) (s' : UploadLegacy.State) :
  UploadLegacyView.alike_worlds w w' -> UploadLegacyView.alike s s' ->
  UploadLegacyView.alike_worlds
    (Upload.started w (Upload.handleFileSelect f s))
    (UploadLegacy.started w' (UploadLegacy.handleFileSelect f s')).
Proof.
  intros A (S1 & S2 & S3 & S4 & S5).
  unfold Upload.handleFileSelect, UploadLegacy.handleFileSelect.
  destruct f as [f|]; [destruct (prefix "video/" (type f))|];
    apply alike_started; try assumption;
    try (repeat split; simpl; assumption || reflexivity);
    repeat constructor.
Qed.

Lemma alike_settled (o : FetchOutcome) (s : Upload.State)
    (s' : UploadLegacy.State) :
  UploadLegacyView.alike s s' ->
  UploadLegacyView.alike (snd (Upload.handleSubmit_settled o s))
                         (snd (UploadLegacy.handleSubmit_settled o s')).
Proof.
  intros (S1 & S2 & S3 & S4 & S5).
  assert (X : forall m,
             UploadLegacyView.alike
               (Upload.setLoading false (Upload.setError m s))
               (UploadLegacy.setLoading false (UploadLegacy.setError m s')))
    by (intros m; repeat split; assumption).
  destruct o as [r|e]; [|apply X].
  unfold Upload.handleSubmit_settled, UploadLegacy.handleSubmit_settled,
    try_catch_finally, bind, eval, throw.
  simpl. destruct (ok r); simpl.
  - destruct (json r) as [data|e]; [|apply X]. simpl.
    destruct (Upload.has_frames data) as [[|]|e];
      repeat split; simpl; assumption.
  - destruct (json r) as [data|e]; [|apply X]. simpl.
    destruct (Get data "detail") as [detail|e]; [|apply X].
    destruct (new_Error _); apply X.
Qed.

Lemma alike_dispatch (w : Upload.World) (w' : UploadLegacy.World)
    (e : UploadLegacy.Event) :
  UploadLegacyView.alike_worlds w w' ->
  UploadLegacyView.alike_worlds (Upload.dispatch w (SideBySide.canonical e))
                                (UploadLegacy.dispatch w' e).
Proof.
  intros A. pose proof A as ((A1 & A2 & A3 & A4 & A5) & B & C).
  assert (En : Upload.enabled w (SideBySide.canonical e)
               = UploadLegacy.enabled w' e).
  { destruct e; simpl; unfold Upload.form_view, UploadLegacy.form_view,
      Upload.submit_disabled, UploadLegacy.submit_disabled;
      rewrite <- ?A1, <- ?A3, <- ?A4, <- ?C; try reflexivity.
    now rewrite (Forall2_length B). }
  unfold Upload.dispatch, UploadLegacy.dispatch. rewrite En.
  destruct (UploadLegacy.enabled w' e); [|exact A].
  assert (S : UploadLegacyView.alike (Upload.ui w) (UploadLegacy.ui w'))
    by (repeat split; assumption).
  destruct e as [f|t|files| | | |i o|i]; simpl.
  - now apply alike_handleFileSelect.
  - apply alike_started; try assumption; [|constructor].
    destruct t; repeat split; simpl; assumption.
  - unfold Upload.handleDrop, UploadLegacy.handleDrop.
    destruct files as [|f files].
    + apply alike_started; try assumption; [|constructor].
      repeat split; simpl; assumption.
    + apply alike_handleFileSelect; [assumption|].
      repeat split; simpl; assumption.
  - unfold Upload.handleSubmit, UploadLegacy.handleSubmit. rewrite <- A1.
    destruct (Upload.file (Upload.ui w)) as [f|] eqn:F;
      apply alike_started; try assumption;
      try (repeat split; simpl; congruence);
      repeat constructor.
    simpl. now rewrite string_app_assoc.
  - apply alike_started; try assumption; [|constructor].
    repeat split; simpl; assumption.
  - apply alike_started; try assumption; [|constructor].
    repeat split; simpl; assumption.
  - split; [|split]; simpl.
    + now apply alike_settled.
    + now apply agree_remove_nth.
    + assumption.
  - rewrite <- C. destruct (nth_error (Upload.reads w) i); [|exact A].
    split; [|split]; simpl; try assumption; try reflexivity.
    repeat split; simpl; assumption.
Qed.

End DuplicateAlike.

(** X7.  Whatever the events and the responses, the duplicate component
    stays in step with the canonical one in everything but the error
    message: file, preview, loading flag, result and drag flag are equal,
    the pending reads are the same and the pending requests differ only
    in the [include_gradcam] flag.  So the duplicate, too, never has more
    than one request in flight and never shows a result while one is
    pending. *)
Theorem duplicate_differs_in_error_only `{Engine}
    (es : list UploadLegacy.Event) :
  let w := Upload.run Upload.start (map SideBySide.canonical es) in
  let w' := UploadLegacy.run UploadLegacy.start es in
  UploadLegacyView.alike_worlds w w' /\
  List.length (UploadLegacy.fetches w')
  = (if UploadLegacy.loading (UploadLegacy.ui w') then 1 else 0) /\
  (UploadLegacy.loading (UploadLegacy.ui w') = true ->
   ToBoolean (UploadLegacy.result (UploadLegacy.ui w')) = false).
Proof.
  intros w w'.
  assert (A : UploadLegacyView.alike_worlds w w').
  { subst w w'.
    assert (G : forall v v', UploadLegacyView.alike_worlds v v' ->
              UploadLegacyView.alike_worlds
                (Upload.run v (map SideBySide.canonical es))
                (UploadLegacy.run v' es)).
    { induction es as [|e es IH]; intros v v' A; simpl.
      - exact A.
      - apply IH. now apply alike_dispatch. }
    apply G. repeat split; constructor. }
  split; [exact A|].
  assert (I : Upload.invariant w)
    by (apply reachable_invariant, run_reachable; constructor).
  destruct A as ((A1 & A2 & A3 & A4 & A5) & B & C).
  destruct I as [I1 I2 I3 I4].
  rewrite <- (Forall2_length B), <- A3, <- A4. split; assumption.
Qed.

(** After the response with body [null] the two components differ in
    their error and in nothing else. *)
Lemma duplicate_differs_in_error_only_witness :
  let es := [UploadLegacy.Pick (Some Samples.clip); UploadLegacy.Submit;
             UploadLegacy.FetchSettled 0 Samples.null_body] in
  Upload.error
    (Upload.ui (@Upload.run Samples.chrome Upload.start
                  (map SideBySide.canonical es)))
  <> UploadLegacy.error
       (UploadLegacy.ui (@UploadLegacy.run Samples.chrome UploadLegacy.start es))
  /\
  UploadLegacyView.alike_worlds
    (@Upload.run Samples.chrome Upload.start (map SideBySide.canonical es))
    (@UploadLegacy.run Samples.chrome UploadLegacy.start es).
Proof.
  cbv zeta. split; [discriminate|].
  exact (proj1 (@duplicate_differs_in_error_only Samples.chrome
                  [UploadLegacy.Pick (Some Samples.clip); UploadLegacy.Submit;
                   UploadLegacy.FetchSettled 0 Samples.null_body])).
Defined.

(** ** The size beside the file name *)

Lemma mebibyte :
  mulN (ofZ 1024) (ofZ 1024) = S754_finite false 4503599627370496 (-32).
Proof. vm_compute. reflexivity. Qed.

Lemma div_mebibyte (m : positive) (e : Z) :
  digits2_pos m = 53%positive -> (-52 <= e <= 0)%Z ->
  divN (S754_finite false m e) (S754_finite false 4503599627370496 (-32))
  = S754_finite false m (e - 20).
Proof.
  intros D E. unfold divN, SFdiv, SFdiv_core_binary.
  unfold Zdigits2. rewrite D.
  change (digits2_pos 4503599627370496) with 53%positive.
  assert (M : (Z.min (fexp prec emax (53 + e - (53 + -32))) (e - -32) = e - 21)%Z)
    by (unfold fexp, emin, prec, emax; lia).
  rewrite M.
  replace (e - -32 - (e - 21))%Z with 53%Z by lia.
  cbv iota.
  assert (Q : Z.div_eucl (Z.shiftl (Zpos m) 53) 4503599627370496
              = (Zpos m~0, 0%Z)).
  { rewrite Z.shiftl_mul_pow2 by lia.
    pose proof (Z.div_eucl_eq (Z.pos m * 2 ^ 53) 4503599627370496 ltac:(lia)) as X.
    pose proof (Z.mod_pos_bound (Z.pos m * 2 ^ 53) 4503599627370496 ltac:(lia)) as Y.
    unfold Z.modulo in Y.
    destruct (Z.div_eucl (Z.pos m * 2 ^ 53) 4503599627370496) as [q r].
    change (2 ^ 53)%Z with 9007199254740992%Z in X.
    assert (q = Zpos m~0) by lia. assert (r = 0%Z) by lia. now subst. }
  rewrite Q. cbv iota beta.
  change (new_location 4503599627370496 0) with loc_Exact.
  change (xorb false false) with false.
  unfold binary_round_aux, shr_fexp.
  unfold Zdigits2. simpl digits2_pos. rewrite D.
  replace (fexp prec emax (Z.pos (Pos.succ 53) + (e - 21)) - (e - 21))%Z with 1%Z
    by (unfold fexp, emin, prec, emax; lia).
  simpl shr. cbv iota beta.
  simpl round_nearest_even. cbv iota. rewrite D.
  replace (fexp prec emax (53 + (e - 21 + 1)) - (e - 21 + 1))%Z with 0%Z
    by (unfold fexp, emin, prec, emax; lia).
  unfold shr. cbv iota beta. unfold shr_m.
  assert (L : (e - 21 + 1 <=? emax - prec)%Z = true)
    by (apply Z.leb_le; unfold emax, prec; lia).
  rewrite L. f_equal. lia.
Qed.

Lemma digits2_iter_xO (p k : positive) :
  digits2_pos (Pos.iter xO p k) = (digits2_pos p + k)%positive.
Proof.
  induction k as [|k IH] using Pos.peano_ind.
  - simpl. lia.
  - rewrite Pos.iter_succ. simpl. rewrite IH. lia.
Qed.

Lemma ofLength_normal (n : nat) :
  (Z.of_nat n < 2 ^ 53)%Z ->
  n = 0%nat \/
  exists m e, ofLength n = S754_finite false m e /\
    digits2_pos m = 53%positive /\ (-52 <= e <= 0)%Z /\
    (Zpos m = Z.of_nat n * 2 ^ (- e))%Z.
Proof.
  intros B. unfold ofLength.
  destruct (Z.of_nat n) as [|p|p] eqn:N; [left; lia| |lia].
  right.
  assert (D : (Zpos (digits2_pos p) <= 53)%Z)
    by (apply (Zdigits2_le (Zpos p)); lia).
  unfold prec.
  destruct (53 - Zpos (digits2_pos p))%Z as [|k|k] eqn:K; [| |lia].
  - exists p, 0%Z. repeat split; try lia.
  - exists (Pos.iter xO p k), (Zneg k). repeat split; try lia.
    + rewrite digits2_iter_xO. lia.
    + change (Pos.iter xO p k) with (shift_pos k p).
      rewrite shift_pos_correct.
      change (Zpower_pos 2 k) with (2 ^ Zpos k)%Z.
      change (- Z.neg k)%Z with (Zpos k). lia.
Qed.

Lemma length_app (s t : string) :
  String.length (s ++ t) = String.length s + String.length t.
Proof. induction s as [|c s IH]; simpl; [reflexivity | now rewrite IH]. Qed.

Lemma length_zeros (k : nat) : String.length (Fixed.zeros k) = k.
Proof. induction k as [|k IH]; simpl; [reflexivity | now rewrite IH]. Qed.

Lemma substring_whole (s : string) : substring 0 (String.length s) s = s.
Proof. induction s as [|c s IH]; simpl; [reflexivity | now rewrite IH]. Qed.

Lemma substring_take_drop (s : string) (a : nat) :
  a <= String.length s ->
  substring 0 a s ++ substring a (String.length s - a) s = s.
Proof.
  revert a. induction s as [|c s IH]; intros a L; simpl in L.
  - destruct a; [reflexivity|lia].
  - destruct a as [|a].
    + simpl. now rewrite substring_whole.
    + simpl. rewrite IH by lia. reflexivity.
Qed.

Lemma length_substring (s : string) (a b : nat) :
  a + b <= String.length s -> String.length (substring a b s) = b.
Proof.
  revert a b. induction s as [|c s IH]; intros a b L; simpl in L.
  - destruct a, b; simpl; lia.
  - destruct a as [|a].
    + destruct b as [|b]; simpl; [reflexivity|]. rewrite IH by lia. reflexivity.
    + simpl. apply IH. lia.
Qed.

Lemma place_point_shape (f : nat) (n : Z) :
  1 <= f ->
  exists a b,
    Fixed.place_point f n = a ++ "." ++ b /\
    String.length b = f /\ 1 <= String.length a /\
    a ++ b = UploadView.padded f n.
Proof.
  intros F. unfold Fixed.place_point, UploadView.padded.
  destruct f as [|f]; [lia|].
  set (m := Fixed.decimal n).
  set (m' := if (String.length m <=? S f)%nat
             then Fixed.zeros (S f + 1 - String.length m) ++ m else m).
  assert (L : S f + 1 <= String.length m').
  { subst m'. destruct (Nat.leb_spec (String.length m) (S f)).
    - rewrite length_app, length_zeros. lia.
    - lia. }
  exists (substring 0 (String.length m' - S f) m'),
         (substring (String.length m' - S f) (S f) m').
  split; [reflexivity|]. split; [apply length_substring; lia|].
  split; [rewrite length_substring; lia|].
  pose proof (substring_take_drop m' (String.length m' - S f) ltac:(lia)) as T.
  replace (String.length m' - (String.length m' - S f)) with (S f) in T by lia.
  exact T.
Qed.

(** X8.  The size shown beside the file name is exact: for every file below
    2^53 bytes the division by 1024 * 1024 loses nothing in binary64, and
    the text is the size in mebibytes rounded to the nearest hundredth,
    the upper one on a tie, with at least one digit before the point and
    exactly two after it, followed by [MB].  Every file of at most 5242
    bytes, the empty file included, is shown as [0.00MB]. *)
Theorem file_size_text `{Engine} (f : MediaFile) :
  (Z.of_nat (size f) < 2 ^ 53)%Z ->
  let n := ((200 * Z.of_nat (size f) + 1048576) / 2097152)%Z in
  UploadView.size_text f = Fixed.place_point 2 n ++ "MB" /\
  (2097152 * n <= 200 * Z.of_nat (size f) + 1048576 < 2097152 * (n + 1))%Z /\
  (exists a b,
     UploadView.size_text f = a ++ "." ++ b ++ "MB" /\
     String.length b = 2 /\ 1 <= String.length a /\
     a ++ b = UploadView.padded 2 n) /\
  ((Z.of_nat (size f) <= 5242)%Z -> UploadView.size_text f = "0.00MB").
Proof.
  intros B n.
  assert (T : UploadView.size_text f = Fixed.place_point 2 n ++ "MB").
  { unfold UploadView.size_text. rewrite mebibyte.
    destruct (ofLength_normal (size f) B) as [Z|(m & e & O & D & E & M)].
    - subst n. rewrite Z. reflexivity.
    - rewrite O, (div_mebibyte m e D E). unfold Fixed.toFixed.
      pose proof (digits2_bounds m) as [_ U]. rewrite D in U.
      assert (P : (0 < 2 ^ (- e))%Z) by (apply pow2_pos; lia).
      assert (A : Fixed.at_least_1e21 m (e - 20) = false).
      { unfold Fixed.at_least_1e21.
        destruct (0 <=? e - 20)%Z eqn:S; [apply Z.leb_le in S; lia|].
        apply Z.leb_gt.
        pose proof (pow2_pos (- (e - 20)) ltac:(lia)).
        change (2 ^ 53)%Z with 9007199254740992%Z in U.
        change (10 ^ 21)%Z with 1000000000000000000000%Z. nia. }
      assert (N : Fixed.nearest_scaled 2 m (e - 20) = n).
      { unfold Fixed.nearest_scaled.
        destruct (0 <=? e - 20)%Z eqn:S; [apply Z.leb_le in S; lia|].
        subst n. rewrite M.
        replace (- (e - 20))%Z with (20 + - e)%Z by lia.
        replace (1 - (e - 20))%Z with (21 + - e)%Z by lia.
        rewrite !pow2_split by lia.
        change (2 ^ 20)%Z with 1048576%Z. change (2 ^ 21)%Z with 2097152%Z.
        change (10 ^ Z.of_nat 2)%Z with 100%Z.
        replace (2 * (Z.of_nat (size f) * 2 ^ (- e) * 100)
                 + 1048576 * 2 ^ (- e))%Z
          with ((200 * Z.of_nat (size f) + 1048576) * 2 ^ (- e))%Z by ring.
        apply Z.div_mul_cancel_r; lia. }
      rewrite A, N. reflexivity. }
  split; [exact T|]. split; [|split].
  - subst n. split.
    + apply Z.mul_div_le. lia.
    + rewrite Z.mul_add_distr_l, Z.mul_1_r.
      pose proof (Z.mul_succ_div_gt (200 * Z.of_nat (size f) + 1048576)
                    2097152 ltac:(lia)). lia.
  - destruct (place_point_shape 2 n ltac:(lia)) as (a & b & P & Lb & La & Pd).
    exists a, b. rewrite T, P. repeat split; try assumption.
    now rewrite !string_app_assoc.
  - intros S. rewrite T.
    replace n with 0%Z; [reflexivity|].
    subst n. symmetry. apply Z.div_small. lia.
Qed.

Lemma file_size_text_witness :
  let f := mkFile "a.mp4" "video/mp4" (repeat Byte.x00 3) in
  (Z.of_nat (size f) < 2 ^ 53)%Z /\
  @UploadView.size_text Samples.chrome f = "0.00MB".
Proof.
  cbv zeta.
  assert (B : (Z.of_nat (size (mkFile "a.mp4" "video/mp4" (repeat Byte.x00 3)))
               < 2 ^ 53)%Z) by reflexivity.
  split; [exact B|].
  destruct (@file_size_text Samples.chrome _ B) as (_ & _ & _ & S).
  apply S. simpl. lia.
Defined.

(** ** The result card of the duplicate *)

Lemma interpretation_cases (prediction : value) :
  (prediction = VStr "REAL" /\
   UploadLegacyView.interpretation prediction
   = ["• High confidence that this is authentic content";
      "• Detection model found no signs of artificial manipulation";
      "• Safe to share and trust this media"]) \/
  (prediction = VStr "FAKE" /\
   UploadLegacyView.interpretation prediction
   = ["• High confidence deepfake detected using EfficientNet model";
      "• Content shows signatures of AI-generated facial manipulation";
      "• Do not share or trust this media as authentic"]) \/
  (prediction = VStr "SUSPICIOUS" /\
   UploadLegacyView.interpretation prediction
   = ["• Detection model has moderate confidence of manipulation";
      "• Verify with manual inspection recommended";
      "• Content quality or compression may affect analysis"]) \/
  (prediction <> VStr "REAL" /\ prediction <> VStr "FAKE" /\
   prediction <> VStr "SUSPICIOUS" /\
   UploadLegacyView.interpretation prediction = []).
Proof.
  unfold UploadLegacyView.interpretation.
  destruct (strict_eq_str prediction "REAL") eqn:R.
  { apply strict_eq_str_true in R. subst. left. split; reflexivity. }
  destruct (strict_eq_str prediction "FAKE") eqn:F.
  { apply strict_eq_str_true in F. subst. right. left. split; reflexivity. }
  destruct (strict_eq_str prediction "SUSPICIOUS") eqn:S.
  { apply strict_eq_str_true in S. subst. right. right. left.
    split; reflexivity. }
  right. right. right. apply strict_eq_str_false in R, F, S.
  repeat split; assumption.
Qed.

(** X9.  The duplicate shows every verdict as the canonical component does:
    the same accent theme, card theme, headline and confidence text for
    every prediction and confidence.  Its interpretation list has three
    items for each recognised prediction and none for any other value, so
    it is shown exactly when there is a headline, and no item serves two
    predictions. *)
Theorem duplicate_card `{Engine} (prediction : value) :
  UploadLegacyView.getResultColor prediction
  = Upload.getResultColor prediction /\
  UploadLegacyView.getResultBg prediction = Upload.getResultBg prediction /\
  UploadLegacyView.headline prediction = Upload.headline prediction /\
  (forall c, UploadLegacyView.confidence_text c = Upload.confidence_text c) /\
  (List.length (UploadLegacyView.interpretation prediction) = 3 \/
   UploadLegacyView.interpretation prediction = []) /\
  (UploadLegacyView.interpretation prediction = [] <->
   Upload.headline prediction = EmptyString) /\
  (forall other item,
     In item (UploadLegacyView.interpretation prediction) ->
     In item (UploadLegacyView.interpretation other) ->
     other = prediction).
Proof.
  split; [reflexivity|]. split; [reflexivity|]. split; [reflexivity|].
  split; [reflexivity|].
  destruct (interpretation_cases prediction)
    as [[-> I]|[[-> I]|[[-> I]|(R & F & S & I)]]]; rewrite I.
  4: { split; [now right|]. split.
       - split; [intros _|reflexivity]. unfold Upload.headline.
         apply strict_eq_str_false in R, F, S. now rewrite R, F, S.
       - intros other item []. }
  all: split; [now left|]; split;
    [split; discriminate|];
    intros other item P O;
    destruct (interpretation_cases other)
      as [[-> J]|[[-> J]|[[-> J]|(_ & _ & _ & J)]]];
    rewrite J in O; try reflexivity; exfalso; simpl in P, O;
    repeat (destruct P as [P|P]; [|]); try contradiction;
    subst item;
    repeat (destruct O as [O|O]; [try discriminate O|]);
    try contradiction.
Qed.

Lemma duplicate_card_witness :
  In "• Verify with manual inspection recommended"
     (UploadLegacyView.interpretation (VStr "SUSPICIOUS")) /\
  forall other,
    In "• Verify with manual inspection recommended"
       (UploadLegacyView.interpretation other) ->
    other = VStr "SUSPICIOUS".
Proof.
  split; [right; left; reflexivity|].
  intros other O.
  destruct (@duplicate_card Samples.chrome (VStr "SUSPICIOUS"))
    as (_ & _ & _ & _ & _ & _ & U).
  apply (U other _ (or_intror (or_introl eq_refl)) O).
Defined.

(** ** The FAQ section *)

(** X10.  At most one answer is open, and it is the one of the question
    clicked last: after any clicks ending with a click on [index], every
    other answer is closed and the answer of [index] is open exactly when
    it was closed before that click.  Clicking the same question twice in
    a row leaves its answer as it was and every other answer closed. *)
Theorem faq_last_click_decides
    (before : list nat) (index : nat) (s0 : Faq.State) :
  let s := Faq.clicks before s0 in
  let s' := Faq.clicks (before ++ [index]) s0 in
  (s' = None \/ s' = Some index) /\
  Faq.is_open s' index = negb (Faq.is_open s index) /\
  (forall other, other <> index -> Faq.is_open s' other = false) /\
  List.length (Faq.answers_shown s') <= 1 /\
  (index < Faq.faqs_length ->
   Faq.answers_shown s' = if Faq.is_open s index then [] else [index]) /\
  Faq.clicks (before ++ [index; index]) s0
  = (if Faq.is_open s index then Some index else None).
Proof.
  intros s s'.
  assert (E : s' = Faq.toggleFaq index s)
    by (subst s s'; unfold Faq.clicks; now rewrite fold_left_app).
  assert (E2 : Faq.clicks (before ++ [index; index]) s0
               = Faq.toggleFaq index (Faq.toggleFaq index s))
    by (subst s; unfold Faq.clicks; now rewrite fold_left_app).
  rewrite E, E2. clear E E2 s'. unfold Faq.toggleFaq.
  assert (A : forall i, Faq.answers_shown (Some i)
                        = if (i <? Faq.faqs_length)%nat then [i] else []).
  { intros i. unfold Faq.answers_shown. simpl Faq.is_open.
    destruct (Nat.ltb_spec i Faq.faqs_length).
    - apply filter_eqb_seq. lia.
    - assert (F : forall a n, a + n <= i -> filter (Nat.eqb i) (seq a n) = []).
      { intros a n. revert a. induction n as [|n IH]; intros a B;
          [reflexivity|]. simpl.
        destruct (Nat.eqb_spec i a); [lia|]. apply IH. lia. }
      apply F. lia. }
  destruct (Faq.is_open s index) eqn:O.
  - split; [now left|]. split; [reflexivity|]. split; [reflexivity|].
    split; [simpl; lia|]. split; [reflexivity|].
    simpl. reflexivity.
  - split; [now right|]. split; [simpl; apply Nat.eqb_refl|].
    split; [|split; [|split]].
    + intros other N. simpl. apply Nat.eqb_neq. congruence.
    + rewrite A. destruct (index <? Faq.faqs_length)%nat; simpl; lia.
    + intros L. rewrite A. apply Nat.ltb_lt in L. now rewrite L.
    + simpl. now rewrite Nat.eqb_refl.
Qed.

Lemma faq_last_click_decides_witness :
  Faq.clicks [0; 3; 1; 1; 2] Faq.initial = Some 2 /\
  Faq.answers_shown (Faq.clicks ([0; 3; 1; 1] ++ [2]) Faq.initial) = [2].
Proof.
  split; [reflexivity|].
  destruct (faq_last_click_decides [0; 3; 1; 1] 2 Faq.initial)
    as (_ & _ & _ & _ & A & _).
  apply A. unfold Faq.faqs_length. lia.
Defined.

(** ** The test for evidence frames *)

(** X11.  The handler's test [data.gradcam_frames && data.gradcam_frames.length
    > 0] and the frames the result card shows go together: for a result
    object whose [gradcam_frames] is an array the test holds exactly when
    the card has frames to show, whatever the length of the array; when
    the member is absent or [null] the test fails and the card shows
    none. *)
Theorem frames_test_matches_card `{Engine}
    (members : list (string * value)) (s : Upload.State) :
  Upload.result s = VObj members ->
  (forall items,
     own members "gradcam_frames" = Some (VArr items) ->
     Upload.evidenceFrames s = items /\
     Upload.has_frames (VObj members)
     = Normal (negb (Nat.eqb (List.length (Upload.evidenceFrames s)) 0))) /\
  (own members "gradcam_frames" = None \/
   own members "gradcam_frames" = Some VNull ->
   Upload.evidenceFrames s = [] /\
   Upload.has_frames (VObj members) = Normal false).
Proof.
  intros R. unfold Upload.evidenceFrames. rewrite R. simpl. split.
  - intros items O. rewrite O. split; [reflexivity|].
    rewrite (has_frames_array members items O). now destruct items.
  - unfold Upload.has_frames. simpl. intros [O|O]; rewrite O; split; reflexivity.
Qed.

Lemma frames_test_matches_card_witness :
  @Upload.has_frames Samples.chrome Samples.framed_verdict = Normal true /\
  List.length
    (@Upload.evidenceFrames Samples.chrome
       (Upload.setResult Samples.framed_verdict Upload.initial)) = 3.
Proof.
  destruct (@frames_test_matches_card Samples.chrome
              [("prediction", VStr "FAKE"); ("confidence", VNum Samples.n0_972);
               ("filename", VStr "a.mp4");
               ("gradcam_frames",
                VArr [Samples.frame 12 Samples.n0_972 false;
                      Samples.frame 40 Samples.n0_9847 true;
                      Samples.frame 77 Samples.n0_972 false])]
              (Upload.setResult Samples.framed_verdict Upload.initial)
              eq_refl) as (A & _).
  destruct (A _ eq_refl) as (E & T).
  split; [exact T|]. rewrite E. reflexivity.
Defined.

(** ** The two ways in: picker and drop zone *)

(** X12.  A drop is a pick of the first dropped file after the drag has ended:
    the other files are ignored, and dropping leads to the same world as
    leaving the drop zone and then picking that file.  The one difference
    is the empty case: a drop without files only ends the drag and shows
    no error, a change of the picker without a file shows the validation
    error. *)
Theorem drop_is_pick_of_first `{Engine}
    (w : Upload.World) (files : list MediaFile) :
  Upload.dispatch w (Upload.Drop files)
  = Upload.dispatch w (Upload.Drop (firstn 1 files)) /\
  Upload.dispatch w (Upload.Drop files)
  = Upload.run w (Upload.Drag dragleave
                  :: map (fun f => Upload.Pick (Some f)) (firstn 1 files)) /\
  (Upload.enabled w (Upload.Drop []) = true ->
   Upload.error (Upload.ui (Upload.dispatch w (Upload.Drop [])))
   = Upload.error (Upload.ui w) /\
   Upload.error (Upload.ui (Upload.dispatch w (Upload.Pick None)))
   = Some "Please select a valid video file").
Proof.
  split; [|split].
  - destruct files as [|f files]; reflexivity.
  - unfold Upload.run, Upload.dispatch.
    destruct files as [|f files]; simpl;
      unfold Upload.form_view;
      destruct (ToBoolean (Upload.result (Upload.ui w))) eqn:T; simpl;
      rewrite ?T; reflexivity.
  - intros En. unfold Upload.dispatch.
    change (Upload.enabled w (Upload.Pick None))
      with (Upload.enabled w (Upload.Drop [])).
    rewrite En. split; reflexivity.
Qed.

Lemma drop_is_pick_of_first_witness :
  Upload.error
    (Upload.ui (@Upload.dispatch Samples.chrome Upload.start (Upload.Drop [])))
  = None /\
  Upload.error
    (Upload.ui (@Upload.dispatch Samples.chrome Upload.start (Upload.Pick None)))
  = Some "Please select a valid video file".
Proof.
  exact (proj2 (proj2 (@drop_is_pick_of_first Samples.chrome Upload.start []))
           eq_refl).
Defined.
